(** * APA formatter: the text parser and the body mapper of [apa_formatter.py]

    The development embeds [TextParser.parse] and the [APAFormatter] methods
    that build the document, and proves properties of the line classifier,
    the paragraph buffer, the references section and the run-in headings.

    Text is a [string] whose characters are read as the code points
    U+0000..U+00FF; on that range the character classes below are the ones
    of Python's [str.strip], [str.isupper] and [str.lower]. *)

From Stdlib Require Import Ascii String List ZArith Lia Bool.
From stdpp Require Import gmap strings.
Import ListNotations.

(** ** Exceptions *)

Inductive exn : Type :=
  | KeyError (key : string)
  | IndexError
  | ValueError
  | OSError (path : string).

Inductive result (A : Type) : Type :=
  | Ok (a : A)
  | Raise (e : exn).

Arguments Ok {A} a.
Arguments Raise {A} e.

#[global] Instance result_ret : MRet result := fun A a => Ok a.

#[global] Instance result_bind : MBind result := fun A B k r =>
  match r with
  | Ok a => k a
  | Raise e => Raise e
  end.

(** ** Python built-ins used by the program *)

Module Py.

Definition code (c : ascii) : N := N_of_ascii c.

(** [str.isspace] on one character: TAB..CR, FS..US, SPACE, NEL, NBSP. *)
Definition isspace (c : ascii) : bool :=
  let n := code c in
  ((9 <=? n) && (n <=? 13) || (28 <=? n) && (n <=? 32)
   || (n =? 133) || (n =? 160))%N.

(** [str.isupper] on one character: A..Z and the capital letters
    U+00C0..U+00DE, the multiplication sign U+00D7 apart. *)
Definition isupper (c : ascii) : bool :=
  let n := code c in
  ((65 <=? n) && (n <=? 90)
   || (192 <=? n) && (n <=? 222) && negb (n =? 215))%N.

Definition lower_char (c : ascii) : ascii :=
  if isupper c then ascii_of_N (code c + 32) else c.

(** [s.lower()] *)
Fixpoint lower (s : string) : string :=
  match s with
  | EmptyString => EmptyString
  | String c s' => String (lower_char c) (lower s')
  end.

Fixpoint lstrip (s : string) : string :=
  match s with
  | EmptyString => EmptyString
  | String c s' => if isspace c then lstrip s' else s
  end.

Fixpoint rstrip (s : string) : string :=
  match s with
  | EmptyString => EmptyString
  | String c s' =>
      match rstrip s' with
      | EmptyString => if isspace c then EmptyString else String c EmptyString
      | r => String c r
      end
  end.

(** [s.strip()] *)
Definition strip (s : string) : string := rstrip (lstrip s).

(** Truth value of a string and of a list: non-empty. *)
Definition truthy (s : string) : bool :=
  match s with
  | EmptyString => false
  | String _ _ => true
  end.

Definition nonempty {A : Type} (l : list A) : bool :=
  match l with
  | [] => false
  | _ :: _ => true
  end.

Definition str_eqb (s t : string) : bool := String.eqb s t.

(** [s.split(sep)] for a separator of one character. *)
Fixpoint split (sep : ascii) (s : string) : list string :=
  match s with
  | EmptyString => [EmptyString]
  | String c s' =>
      if Ascii.eqb c sep then EmptyString :: split sep s'
      else match split sep s' with
           | [] => [String c EmptyString]
           | l :: ls => String c l :: ls
           end
  end.

(** [s.startswith(p)] *)
Fixpoint startswith (s p : string) {struct p} : bool :=
  match p, s with
  | EmptyString, _ => true
  | String _ _, EmptyString => false
  | String a p', String b s' => Ascii.eqb a b && startswith s' p'
  end.

(** [s.endswith(p)]: some suffix of [s] equals [p]. *)
Fixpoint endswith (s p : string) : bool :=
  str_eqb s p ||
  match s with
  | EmptyString => false
  | String _ s' => endswith s' p
  end.

(** [p in s] *)
Fixpoint contains (p s : string) : bool :=
  startswith s p ||
  match s with
  | EmptyString => false
  | String _ s' => contains p s'
  end.

(** [s[n:]] *)
Fixpoint slice_from (n : nat) (s : string) : string :=
  match n, s with
  | O, _ => s
  | S _, EmptyString => EmptyString
  | S n', String _ s' => slice_from n' s'
  end.

(** [s[0]] *)
Definition getitem0 (s : string) : result ascii :=
  match s with
  | EmptyString => Raise IndexError
  | String c _ => Ok c
  end.

(** [sep.join(l)] *)
Fixpoint join (sep : string) (l : list string) : string :=
  match l with
  | [] => EmptyString
  | [x] => x
  | x :: xs => x +:+ sep +:+ join sep xs
  end.

(** The regular expression dot: any character but the line feed. *)
Definition dot (c : ascii) : bool := negb (Ascii.eqb c "010"%char).

(** The lazy tail of [(.+?)d], entered once the group holds a character:
    stop at the first place where [d] follows, else take one more. *)
Fixpoint lazy_until (d : string) (s : string) : option string :=
  if startswith s d then Some EmptyString
  else match s with
       | EmptyString => None
       | String c s' =>
           if dot c then
             match lazy_until d s' with
             | Some g => Some (String c g)
             | None => None
             end
           else None
       end.

(** A match of [d(.+?)d] anchored at the start of [s]; the group. *)
Definition match_here (d : string) (s : string) : option string :=
  if startswith s d then
    match slice_from (String.length d) s with
    | EmptyString => None
    | String c s' =>
        if dot c then
          match lazy_until d s' with
          | Some g => Some (String c g)
          | None => None
          end
        else None
    end
  else None.

(** [re.search(d + '(.+?)' + d, s)]: the group of the leftmost match, for a
    delimiter [d] of literal characters. *)
Fixpoint re_search_delimited (d : string) (s : string) : option string :=
  match match_here d s with
  | Some g => Some g
  | None =>
      match s with
      | EmptyString => None
      | String _ s' => re_search_delimited d s'
      end
  end.

End Py.

(** ** Parsed content *)

(** A block of [body_content]: the dictionaries with ['type'] equal to
    ['heading'], ['paragraph'] and ['math']. *)
Inductive Block : Type :=
  | Heading (level : nat) (text : string)
  | Paragraph (text : string)
  | Math (formula : string).

(** ** [TextParser] *)

Module TextParser.

(** The local variables of [parse] that the loop updates. *)
Record PState : Type := mkPState {
  body_content : list Block;
  references : list string;
  in_references : bool;
  current_paragraph : list string
}.

Definition init : PState :=
  {| body_content := []; references := [];
     in_references := false; current_paragraph := [] |}.

(** [if current_paragraph: body_content.append(...); current_paragraph = []] *)
Definition flush (st : PState) : PState :=
  if Py.nonempty (current_paragraph st) then
    {| body_content :=
         body_content st ++ [Paragraph (Py.join " " (current_paragraph st))];
       references := references st;
       in_references := in_references st;
       current_paragraph := [] |}
  else st.

Definition set_in_references (b : bool) (st : PState) : PState :=
  {| body_content := body_content st; references := references st;
     in_references := b; current_paragraph := current_paragraph st |}.

Definition emit (b : Block) (st : PState) : PState :=
  {| body_content := body_content st ++ [b]; references := references st;
     in_references := in_references st;
     current_paragraph := current_paragraph st |}.

Definition add_reference (r : string) (st : PState) : PState :=
  {| body_content := body_content st; references := references st ++ [r];
     in_references := in_references st;
     current_paragraph := current_paragraph st |}.

Definition add_line (l : string) (st : PState) : PState :=
  {| body_content := body_content st; references := references st;
     in_references := in_references st;
     current_paragraph := current_paragraph st ++ [l] |}.

(** The loop over [lines[i+1:]] after a [---] line: the first line that is
    not blank decides, and ends the loop. *)
Fixpoint lookahead (future : list string) (in_refs : bool) : result bool :=
  match future with
  | [] => Ok in_refs
  | future_line :: rest =>
      if Py.truthy (Py.strip future_line) then
        c ← Py.getitem0 (Py.strip future_line);
        Ok (if Py.isupper c then true else in_refs)
      else lookahead rest in_refs
  end.

(** The test of line 246. *)
Definition marker_test (lines : list string) (i : nat) (stripped : string)
  : bool :=
  Py.str_eqb (Py.lower stripped) "references"
  || (Py.str_eqb stripped "---" && (i + 1 <? length lines)).

(** The count of the leading ['#'] characters. *)
Fixpoint heading_level (stripped : string) : nat :=
  match stripped with
  | String char s' =>
      if Ascii.eqb char "#" then S (heading_level s') else 0
  | EmptyString => 0
  end.

(** The two searches of lines 307 to 309. *)
Definition formula_match (stripped : string) : option string :=
  match Py.re_search_delimited "``" stripped with
  | Some g => Some g
  | None => Py.re_search_delimited "`" stripped
  end.

(** One iteration of the [for] loop, on line [i] of [lines]. *)
Definition step (lines : list string) (i : nat) (line : string) (st : PState)
  : result PState :=
  let stripped := Py.strip line in
  if marker_test lines i stripped then
    in_refs ← (if Py.str_eqb stripped "---"
               then lookahead (drop (i + 1) lines) (in_references st)
               else Ok true);
    Ok (flush (set_in_references in_refs st))
  else if in_references st then
    Ok (if Py.truthy stripped then add_reference stripped st else st)
  else if Py.startswith stripped "#" then
    let level := heading_level stripped in
    let text := Py.strip (Py.slice_from level stripped) in
    Ok (emit (Heading (Nat.min level 5) text) (flush st))
  else if Py.contains "``" stripped || Py.contains "`" stripped then
    match formula_match stripped with
    | Some formula => Ok (emit (Math formula) (flush st))
    | None => Ok (flush st)
    end
  else if Py.truthy stripped && negb (Py.startswith stripped "---") then
    Ok (add_line stripped st)
  else if Py.nonempty (current_paragraph st) then
    Ok (flush st)
  else Ok st.

(** [for i, line in enumerate(lines)], from index [i] on. *)
Fixpoint loop (lines : list string) (i : nat) (todo : list string)
  (st : PState) : result PState :=
  match todo with
  | [] => Ok st
  | line :: todo' =>
      st' ← step lines i line st;
      loop lines (S i) todo' st'
  end.

Definition parse (raw_text : string) : result (list Block * list string) :=
  let lines := Py.split "010" raw_text in
  st ← loop lines 0 lines init;
  let st' := flush st in
  Ok (body_content st', references st').

End TextParser.

(** ** The document library

    The part of python-docx that the formatter calls. A document is the
    [Normal] style, its sections, the header of the first section and the
    paragraphs of the body; a paragraph object is the index of a paragraph
    in the body, so that an assignment to one of its attributes rewrites the
    document in place. Lengths are in English Metric Units. *)

Module Docx.

Inductive WD_ALIGN_PARAGRAPH : Type := LEFT | CENTER | RIGHT.

Inductive WD_LINE_SPACING : Type := SINGLE | DOUBLE.

(** [Inches(num/den)] and [Pt(n)] *)
Definition Inches (num den : Z) : Z := Z.quot (num * 914400) den.
Definition Pt (n : Z) : Z := n * 12700.

Inductive RunContent : Type :=
  | Text (s : string)
  | PageBreak
  | Field (instrText : string).

Record Run : Type := mkRun {
  content : RunContent;
  bold : option bool;
  italic : option bool
}.

Record Para : Type := mkPara {
  runs : list Run;
  alignment : option WD_ALIGN_PARAGRAPH;
  left_indent : option Z;
  first_line_indent : option Z
}.

Record Style : Type := mkStyle {
  font_name : option string;
  font_size : option Z;
  line_spacing_rule : option WD_LINE_SPACING;
  space_before : option Z;
  space_after : option Z
}.

Record Section_ : Type := mkSection {
  top_margin : option Z;
  bottom_margin : option Z;
  left_margin : option Z;
  right_margin : option Z
}.

Record Document : Type := mkDocument {
  normal : Style;
  sections : list Section_;
  header_paragraphs : list Para;
  paragraphs : list Para
}.

Definition plain_run (s : string) : Run :=
  {| content := Text s; bold := None; italic := None |}.

Definition empty_para : Para :=
  {| runs := []; alignment := None;
     left_indent := None; first_line_indent := None |}.

(** [Document()]: the default template, one section with margins of 1 inch
    at the top and the bottom and 1.25 inches at the left and the right, an
    empty header paragraph and an empty body. *)
Definition new_Document : Document :=
  {| normal := mkStyle None None None None None;
     sections := [mkSection (Some (Inches 1 1)) (Some (Inches 1 1))
                            (Some (Inches 5 4)) (Some (Inches 5 4))];
     header_paragraphs := [empty_para];
     paragraphs := [] |}.

Definition set_bold (b : bool) (r : Run) : Run :=
  {| content := content r; bold := Some b; italic := italic r |}.

Definition set_italic (b : bool) (r : Run) : Run :=
  {| content := content r; bold := bold r; italic := Some b |}.

Definition set_runs (rs : list Run) (p : Para) : Para :=
  {| runs := rs; alignment := alignment p;
     left_indent := left_indent p; first_line_indent := first_line_indent p |}.

Definition set_alignment (a : WD_ALIGN_PARAGRAPH) (p : Para) : Para :=
  {| runs := runs p; alignment := Some a;
     left_indent := left_indent p; first_line_indent := first_line_indent p |}.

Definition set_left_indent (z : Z) (p : Para) : Para :=
  {| runs := runs p; alignment := alignment p;
     left_indent := Some z; first_line_indent := first_line_indent p |}.

Definition set_first_line_indent (z : Z) (p : Para) : Para :=
  {| runs := runs p; alignment := alignment p;
     left_indent := left_indent p; first_line_indent := Some z |}.

Definition set_paragraphs (ps : list Para) (d : Document) : Document :=
  {| normal := normal d; sections := sections d;
     header_paragraphs := header_paragraphs d; paragraphs := ps |}.

(** The paragraph [p] appended to the body. *)
Definition push (p : Para) (d : Document) : Document :=
  set_paragraphs (paragraphs d ++ [p]) d.

(** The characters that the text of an XML element can hold: below U+0020
    only TAB, LF and CR. The library refuses the others (U+0000..U+0008,
    U+000B, U+000C, U+000E..U+001F) with a [ValueError]. *)
Definition xml_char (c : ascii) : bool :=
  let n := Py.code c in
  ((32 <=? n) || (n =? 9) || (n =? 10) || (n =? 13))%N.

Fixpoint xml_compatible (s : string) : bool :=
  match s with
  | EmptyString => true
  | String c s' => xml_char c && xml_compatible s'
  end.

Definition tab_or_break (c : ascii) : bool :=
  let n := Py.code c in
  ((n =? 9) || (n =? 10) || (n =? 13))%N.

(** [run.text = text]. The characters are buffered in [bfr]; a TAB, LF or CR
    writes the buffer into the run as a text element and adds a tab or a
    break, and the end of the text writes the buffer too. Writing a buffer
    that XML cannot hold raises, and what was written before stays in the
    run. The result is the text written and whether the assignment
    returned. *)
Fixpoint set_text_from (bfr s : string) : string * bool :=
  match s with
  | EmptyString =>
      if xml_compatible bfr then (bfr, true) else (EmptyString, false)
  | String c s' =>
      if tab_or_break c then
        if xml_compatible bfr then
          let (written, ok) := set_text_from EmptyString s' in
          (bfr +:+ String c written, ok)
        else (EmptyString, false)
      else set_text_from (bfr +:+ String c EmptyString) s'
  end.

Definition set_text (text : string) : string * bool :=
  set_text_from EmptyString text.

End Docx.

(** ** [APAFormatter] *)

Module APAFormatter.

Import Docx.

(** A method of the formatter: it updates [self.doc] and returns or raises;
    what it did to the document before raising stays done. *)
Definition M (A : Type) : Type := Document -> Document * result A.

#[global] Instance M_ret : MRet M := fun A a doc => (doc, Ok a).

#[global] Instance M_bind : MBind M := fun A B k m doc =>
  match m doc with
  | (doc', Ok a) => k a doc'
  | (doc', Raise e) => (doc', Raise e)
  end.

Definition raise {A : Type} (e : exn) : M A := fun doc => (doc, Raise e).

Definition modify (f : Document -> Document) : M unit :=
  fun doc => (f doc, Ok tt).

(** [para.attr = v], as an update [f] of paragraph [para]. *)
Definition para_set (para : nat) (f : Para -> Para) : M unit :=
  modify (fun doc => set_paragraphs (alter f para (paragraphs doc)) doc).

(** [para.add_run(text)]; the result is the index of the run. The run is
    attached to the paragraph first and its text is assigned next, so that a
    text that XML cannot hold raises [ValueError] with the run in place. *)
Definition add_run (para : nat) (c : RunContent) : M nat :=
  fun doc =>
    match paragraphs doc !! para with
    | Some p =>
        let attach (c' : RunContent) :=
          set_paragraphs
            (alter (set_runs (runs p ++ [mkRun c' None None])) para
               (paragraphs doc)) doc in
        match c with
        | Text text =>
            let (written, ok) := set_text text in
            (attach (Text written),
             if ok then Ok (length (runs p)) else Raise ValueError)
        | _ => (attach c, Ok (length (runs p)))
        end
    | None => (doc, Raise IndexError)
    end.

(** [self.doc.add_paragraph(text)]; the result is the paragraph's handle.
    The paragraph is appended to the body first; python-docx then adds a run
    holding [text] under [if text:], so that an empty text leaves the
    paragraph without a run and a text that XML cannot hold raises with the
    paragraph in place. *)
Definition add_paragraph (text : string) : M nat :=
  fun doc =>
    let para := length (paragraphs doc) in
    if Py.truthy text then
      match add_run para (Text text) (push empty_para doc) with
      | (doc', Ok _) => (doc', Ok para)
      | (doc', Raise e) => (doc', Raise e)
      end
    else (push empty_para doc, Ok para).

(** [para.runs[0]] *)
Definition runs_0 (para : nat) : M nat :=
  fun doc =>
    match paragraphs doc !! para with
    | Some p => match runs p with
                | [] => (doc, Raise IndexError)
                | _ :: _ => (doc, Ok 0)
                end
    | None => (doc, Raise IndexError)
    end.

(** [run.attr = v], as an update [f] of run [run] of paragraph [para]. *)
Definition run_set (para run : nat) (f : Run -> Run) : M unit :=
  para_set para (fun p => set_runs (alter f run (runs p)) p).

Definition when (b : bool) (m : M unit) : M unit :=
  if b then m else mret tt.

Definition _set_document_defaults : M unit :=
  modify (fun doc =>
    {| normal := {| font_name := Some "Times New Roman";
                    font_size := Some (Pt 12);
                    line_spacing_rule := Some DOUBLE;
                    space_before := Some (Pt 0);
                    space_after := Some (Pt 0) |};
       sections := sections doc;
       header_paragraphs := header_paragraphs doc;
       paragraphs := paragraphs doc |}).

Definition _set_margins : M unit :=
  modify (fun doc =>
    {| normal := normal doc;
       sections :=
         map (fun _ => mkSection (Some (Inches 1 1)) (Some (Inches 1 1))
                         (Some (Inches 1 1)) (Some (Inches 1 1)))
             (sections doc);
       header_paragraphs := header_paragraphs doc;
       paragraphs := paragraphs doc |}).

(** The header paragraph is the first one of the header, or a new one; it is
    aligned right and receives a run holding the [PAGE] field. *)
Definition _add_page_numbers : M unit :=
  modify (fun doc =>
    let hs := match header_paragraphs doc with
              | [] => [empty_para]
              | hs => hs
              end in
    let page := mkRun (Field "PAGE") None None in
    {| normal := normal doc;
       sections := sections doc;
       header_paragraphs :=
         alter (fun p => set_runs (runs p ++ [page]) (set_alignment RIGHT p))
               0 hs;
       paragraphs := paragraphs doc |}).

(** [title_data[key]] *)
Definition getitem (title_data : gmap string string) (key : string)
  : M string :=
  match title_data !! key with
  | Some v => mret v
  | None => raise (KeyError key)
  end.

(** The body of the loop over the optional keys of the title page. *)
Definition title_line (title_data : gmap string string) (key : string)
  : M unit :=
  match title_data !! key with
  | Some v =>
      if Py.truthy v then
        para ← add_paragraph v;
        para_set para (set_alignment CENTER)
      else mret tt
  | None => mret tt
  end.

Fixpoint for_each {A : Type} (f : A -> M unit) (l : list A) : M unit :=
  match l with
  | [] => mret tt
  | x :: l' => _ ← f x; for_each f l'
  end.

Definition _create_title_page (title_data : gmap string string) : M unit :=
  _ ← for_each (fun _ : nat => _ ← add_paragraph ""; mret tt) (seq 0 3);
  title_para ← add_paragraph "";
  _ ← para_set title_para (set_alignment CENTER);
  title ← getitem title_data "title";
  title_run ← add_run title_para (Text title);
  _ ← run_set title_para title_run (set_bold true);
  _ ← add_paragraph "";
  for_each (title_line title_data)
    ["author"; "institution"; "course"; "instructor"; "date"].

(** [body_content[i + 1] if i + 1 < len(body_content) else None] *)
Definition next_of (body_content : list Block) (i : nat) : option Block :=
  if i + 1 <? length body_content then body_content !! (i + 1) else None.

Definition is_paragraph (b : option Block) : option string :=
  match b with
  | Some (Paragraph text) => Some text
  | _ => None
  end.

(** The regular headings of lines 165 to 186. *)
Definition regular_heading (level : nat) (text : string) : M unit :=
  para ← add_paragraph text;
  if level =? 1 then
    _ ← para_set para (set_alignment CENTER);
    r ← runs_0 para;
    run_set para r (set_bold true)
  else if level =? 2 then
    _ ← para_set para (set_alignment LEFT);
    r ← runs_0 para;
    run_set para r (set_bold true)
  else if level =? 3 then
    _ ← para_set para (set_alignment LEFT);
    r ← runs_0 para;
    _ ← run_set para r (set_bold true);
    r' ← runs_0 para;
    run_set para r' (set_italic true)
  else if bool_decide (level ∈ [4; 5]) then
    _ ← para_set para (set_left_indent (Inches 1 2));
    heading_run ← runs_0 para;
    _ ← run_set para heading_run (set_bold true);
    _ ← when (level =? 5) (run_set para heading_run (set_italic true));
    when (negb (Py.endswith text "."))
         (_ ← add_run para (Text "."); mret tt)
  else mret tt.

(** The run-in heading of lines 149 to 161. *)
Definition run_in_heading (level : nat) (text next_text : string) : M unit :=
  para ← add_paragraph "";
  _ ← para_set para (set_left_indent (Inches 1 2));
  _ ← para_set para (set_first_line_indent (Inches 0 1));
  heading_run ← add_run para (Text (text +:+ ". "));
  _ ← run_set para heading_run (set_bold true);
  _ ← when (level =? 5) (run_set para heading_run (set_italic true));
  _ ← add_run para (Text next_text);
  mret tt.

(** One iteration of the [while] loop of [_create_body]; the result is the
    value of [i] after it. *)
Definition body_step (body_content : list Block) (i : nat) : M nat :=
  match body_content !! i with
  | None => raise IndexError
  | Some (Heading level text) =>
      let next_block := next_of body_content i in
      match (if bool_decide (level ∈ [4; 5]) then is_paragraph next_block
             else None) with
      | Some next_text =>
          _ ← run_in_heading level text next_text;
          mret (i + 2)
      | None =>
          _ ← regular_heading level text;
          mret (i + 1)
      end
  | Some (Paragraph text) =>
      para ← add_paragraph text;
      _ ← para_set para (set_first_line_indent (Inches 1 2));
      mret (i + 1)
  | Some (Math formula) =>
      para ← add_paragraph "";
      _ ← para_set para (set_alignment CENTER);
      formula_run ← add_run para (Text formula);
      _ ← run_set para formula_run (set_italic true);
      mret (i + 1)
  end.

(** [while i < len(body_content)], for at most [fuel] iterations; the result
    is the last value of [i]. *)
Fixpoint while_body (fuel : nat) (body_content : list Block) (i : nat)
  : M nat :=
  match fuel with
  | O => mret i
  | S fuel' =>
      if i <? length body_content then
        i' ← body_step body_content i;
        while_body fuel' body_content i'
      else mret i
  end.

Definition _create_body (body_content : list Block) : M unit :=
  _ ← while_body (length body_content) body_content 0;
  mret tt.

Definition reference_entry (ref : string) : M unit :=
  if Py.truthy (Py.strip ref) then
    para ← add_paragraph (Py.strip ref);
    _ ← para_set para (set_left_indent (Inches 1 2));
    para_set para (set_first_line_indent (Inches (-1) 2))
  else mret tt.

Definition _create_references (references : list string) : M unit :=
  if Py.nonempty references then
    heading ← add_paragraph "References";
    _ ← para_set heading (set_alignment CENTER);
    r ← runs_0 heading;
    _ ← run_set heading r (set_bold true);
    for_each reference_entry references
  else mret tt.

(** [self.doc.add_page_break()]: a paragraph with one run holding the break. *)
Definition add_page_break : M unit :=
  para ← add_paragraph "";
  _ ← add_run para PageBreak;
  mret tt.

Definition create_document (title_data : gmap string string)
  (body_content : list Block) (references : list string)
  : Document * result unit :=
  (_ ← _set_document_defaults;
   _ ← _set_margins;
   _ ← _add_page_numbers;
   _ ← _create_title_page title_data;
   _ ← add_page_break;
   _ ← _create_body body_content;
   _ ← add_page_break;
   _create_references references) new_Document.

End APAFormatter.

(** ** The entry point *)

(** The file system as the program meets it: the paths at which a file can
    be written, and the documents saved so far with the path given to each
    save, in the order of the saves. *)
Record Files : Type := mkFiles {
  writable : string -> bool;
  saved : list (string * Docx.Document)
}.

(** Nothing saved yet, and every path can be written. *)
#[global] Instance Files_empty : Empty Files :=
  {| writable := fun _ => true; saved := [] |}.

(** [doc.save(output_path)]: opening the file raises [OSError] when the path
    cannot be written. *)
Definition save (doc : Docx.Document) (output_path : string) (fs : Files)
  : Files * result unit :=
  if writable fs output_path then
    ({| writable := writable fs;
        saved := saved fs ++ [(output_path, doc)] |}, Ok tt)
  else (fs, Raise (OSError output_path)).

(** [create_apa_document]: parse, build, then save; the save is reached
    only when neither of the first two raises. *)
Definition create_apa_document (title_data : gmap string string)
  (raw_text output_path : string) (fs : Files) : Files * result unit :=
  match TextParser.parse raw_text with
  | Raise e => (fs, Raise e)
  | Ok (body_content, references) =>
      match APAFormatter.create_document title_data body_content references with
      | (_, Raise e) => (fs, Raise e)
      | (doc, Ok _) => save doc output_path fs
      end
  end.

(** ** Vocabulary of the statements *)

Module Spec.

Import Py TextParser Docx.

(** The block that a flush appends for the buffer [buf]. *)
Definition paragraph_of (buf : list string) : list Block :=
  match buf with
  | [] => []
  | _ :: _ => [Paragraph (join " " buf)]
  end.

(** The first line of [future] that is not blank, trimmed. *)
Definition first_nonblank (future : list string) : option string :=
  head (List.filter truthy (map strip future)).

Definition starts_upper (s : string) : bool :=
  match s with
  | String c _ => isupper c
  | EmptyString => false
  end.

(** The first line after line [i] that is not blank starts with an
    uppercase character. *)
Definition upper_follows (lines : list string) (i : nat) : bool :=
  match first_nonblank (drop (i + 1) lines) with
  | Some s => starts_upper s
  | None => false
  end.

(** The lines of [todo], numbered from [i], that the references section
    keeps: trimmed, not blank, and not taken by the test of line 246. *)
Fixpoint kept_references (lines : list string) (i : nat) (todo : list string)
  : list string :=
  match todo with
  | [] => []
  | line :: todo' =>
      (if marker_test lines i (strip line) then []
       else if truthy (strip line) then [strip line] else [])
      ++ kept_references lines (S i) todo'
  end.

(** The text whose lines are [l]. *)
Definition text_of_lines (l : list string) : string :=
  Py.join (String "010" "") l.

(** What a well-formed block is: a level from 1 to 5, and a paragraph or a
    formula that is not empty. The text of a heading is not constrained. *)
Definition block_ok (b : Block) : Prop :=
  match b with
  | Heading level _ => 1 <= level <= 5
  | Paragraph text => text <> ""
  | Math formula => formula <> ""
  end.

Definition state_ok (st : PState) : Prop :=
  Forall block_ok (body_content st)
  /\ Forall (fun s => s <> "") (current_paragraph st).

(** The run of a level 4 or level 5 heading: bold, and italic at level 5. *)
Definition heading_run (level : nat) (s : string) : Run :=
  {| content := Text s; bold := Some true;
     italic := if level =? 5 then Some true else None |}.

(** The paragraph of a run-in heading and of the paragraph it absorbs. *)
Definition run_in_para (level : nat) (text next_text : string) : Para :=
  {| runs := [heading_run level (text +:+ ". "); plain_run next_text];
     alignment := None;
     left_indent := Some (Inches 1 2);
     first_line_indent := Some (Inches 0 1) |}.

(** The paragraph of a level 4 or level 5 heading that stands alone. *)
Definition standalone_para (level : nat) (text : string) : Para :=
  {| runs := heading_run level text
             :: (if Py.endswith text "." then [] else [plain_run "."]);
     alignment := None;
     left_indent := Some (Inches 1 2);
     first_line_indent := None |}.

End Spec.

(** ** Vocabulary of the further statements *)

Module SpecMore.

Import Py TextParser Docx APAFormatter Spec.

(** [k] characters ['#']. *)
Fixpoint hashes (k : nat) : string :=
  match k with
  | O => EmptyString
  | S k' => String "#" (hashes k')
  end.

(** A trimmed line that is plain text: not empty, not "references" in any
    case, no heading, no rule, and without a backtick. *)
Definition is_plain (s : string) : bool :=
  truthy s
  && negb (str_eqb (lower s) "references")
  && negb (startswith s "---")
  && negb (startswith s "#")
  && negb (contains "`" s).

(** Line [i] of [lines] sets [in_references]: it is "references" in any
    case, or it is "---", a line follows, and the first line after it that
    is not blank starts with an uppercase character. *)
Definition enters (lines : list string) (i : nat) (line : string) : bool :=
  str_eqb (lower (strip line)) "references"
  || (str_eqb (strip line) "---" && (i + 1 <? length lines)
      && upper_follows lines i).

(** A heading whose text is not empty; the other blocks are not
    constrained. *)
Definition heading_text_ok (b : Block) : Prop :=
  match b with
  | Heading _ text => text <> ""
  | _ => True
  end.

(** A block whose text XML can hold. *)
Definition block_xml_ok (b : Block) : Prop :=
  match b with
  | Heading _ text => xml_compatible text = true
  | Paragraph text => xml_compatible text = true
  | Math formula => xml_compatible formula = true
  end.

(** The value of [key] in the title data, when there is one, is a text that
    XML can hold. *)
Definition value_xml_ok (title_data : gmap string string) (key : string)
  : Prop :=
  from_option xml_compatible true (title_data !! key) = true.

(** The content of a run that [add_run] may give it without raising. *)
Definition run_content_ok (c : RunContent) : Prop :=
  match c with
  | Text text => xml_compatible text = true
  | _ => True
  end.

(** The paragraph that [add_paragraph(text)] appends when it returns. *)
Definition text_para (text : string) : Para :=
  set_runs (if truthy text then [plain_run text] else []) empty_para.

(** The paragraphs [ps] appended to the body. *)
Definition push_all (ps : list Para) (d : Document) : Document :=
  set_paragraphs (paragraphs d ++ ps) d.

(** The paragraph block of lines 188 to 190 and the formula block of lines
    192 to 196, as [body_step] has them. *)
Definition paragraph_block (text : string) : M unit :=
  para ← add_paragraph text;
  para_set para (set_first_line_indent (Inches 1 2)).

Definition math_block (formula : string) : M unit :=
  para ← add_paragraph "";
  _ ← para_set para (set_alignment CENTER);
  formula_run ← add_run para (Text formula);
  run_set para formula_run (set_italic true).

(** The loop of [_create_body] read as a recursion on the blocks that
    remain: a level 4 or level 5 heading takes the paragraph block after it,
    every other block is rendered alone. *)
Fixpoint render (body_content : list Block) : M unit :=
  match body_content with
  | [] => mret tt
  | Heading level text :: rest =>
      match rest with
      | Paragraph next_text :: rest' =>
          if bool_decide (level ∈ [4; 5])
          then _ ← run_in_heading level text next_text; render rest'
          else _ ← regular_heading level text; render rest
      | _ => _ ← regular_heading level text; render rest
      end
  | Paragraph text :: rest => _ ← paragraph_block text; render rest
  | Math formula :: rest => _ ← math_block formula; render rest
  end.

Definition bold_run (s : string) : Run :=
  {| content := Text s; bold := Some true; italic := None |}.

(** The paragraph of a heading that is not run in. *)
Definition heading_para (level : nat) (text : string) : Para :=
  if level =? 1 then
    {| runs := [bold_run text]; alignment := Some CENTER;
       left_indent := None; first_line_indent := None |}
  else if level =? 2 then
    {| runs := [bold_run text]; alignment := Some LEFT;
       left_indent := None; first_line_indent := None |}
  else if level =? 3 then
    {| runs := [{| content := Text text; bold := Some true;
                   italic := Some true |}];
       alignment := Some LEFT;
       left_indent := None; first_line_indent := None |}
  else if bool_decide (level ∈ [4; 5]) then standalone_para level text
  else {| runs := [plain_run text]; alignment := None;
          left_indent := None; first_line_indent := None |}.

Definition paragraph_para (text : string) : Para :=
  {| runs := if truthy text then [plain_run text] else [];
     alignment := None; left_indent := None;
     first_line_indent := Some (Inches 1 2) |}.

Definition math_para (formula : string) : Para :=
  {| runs := [{| content := Text formula; bold := None;
                 italic := Some true |}];
     alignment := Some CENTER;
     left_indent := None; first_line_indent := None |}.

(** The paragraphs of the body, block by block, a paragraph block that
    follows a level 4 or level 5 heading being taken with it. *)
Fixpoint body_paras (body_content : list Block) : list Para :=
  match body_content with
  | [] => []
  | Heading level text :: rest =>
      match rest with
      | Paragraph next_text :: rest' =>
          if bool_decide (level ∈ [4; 5])
          then run_in_para level text next_text :: body_paras rest'
          else heading_para level text :: body_paras rest
      | _ => heading_para level text :: body_paras rest
      end
  | Paragraph text :: rest => paragraph_para text :: body_paras rest
  | Math formula :: rest => math_para formula :: body_paras rest
  end.

Definition title_para (title : string) : Para :=
  {| runs := [bold_run title]; alignment := Some CENTER;
     left_indent := None; first_line_indent := None |}.

(** The line of the title page for [key]: none when the key is absent or
    its value is empty. *)
Definition optional_line (title_data : gmap string string) (key : string)
  : list Para :=
  match title_data !! key with
  | Some v =>
      if truthy v then
        [{| runs := [plain_run v]; alignment := Some CENTER;
            left_indent := None; first_line_indent := None |}]
      else []
  | None => []
  end.

Definition title_paras (title_data : gmap string string) (title : string)
  : list Para :=
  [empty_para; empty_para; empty_para; title_para title; empty_para]
  ++ flat_map (optional_line title_data)
       ["author"; "institution"; "course"; "instructor"; "date"].

Definition references_heading : Para :=
  {| runs := [bold_run "References"]; alignment := Some CENTER;
     left_indent := None; first_line_indent := None |}.

(** A reference entry, with its hanging indent. *)
Definition reference_para (ref : string) : Para :=
  {| runs := [plain_run ref]; alignment := None;
     left_indent := Some (Inches 1 2);
     first_line_indent := Some (Inches (-1) 2) |}.

Definition reference_paras (references : list string) : list Para :=
  match references with
  | [] => []
  | _ :: _ =>
      references_heading
      :: map reference_para (List.filter truthy (map strip references))
  end.

Definition page_break_para : Para :=
  {| runs := [mkRun PageBreak None None]; alignment := None;
     left_indent := None; first_line_indent := None |}.

(** The document settings that [create_document] makes. *)
Definition apa_settings (paras : list Para) : Document :=
  {| normal := {| font_name := Some "Times New Roman";
                  font_size := Some (Pt 12);
                  line_spacing_rule := Some DOUBLE;
                  space_before := Some (Pt 0);
                  space_after := Some (Pt 0) |};
     sections := [mkSection (Some (Inches 1 1)) (Some (Inches 1 1))
                    (Some (Inches 1 1)) (Some (Inches 1 1))];
     header_paragraphs :=
       [{| runs := [mkRun (Field "PAGE") None None];
           alignment := Some RIGHT;
           left_indent := None; first_line_indent := None |}];
     paragraphs := paras |}.

(** A string without white space in front. *)
Definition no_leading_space (s : string) : Prop :=
  match s with
  | EmptyString => True
  | String c _ => isspace c = false
  end.

(** A reference entry: not empty, and trimmed. *)
Definition reference_ok (r : string) : Prop := r <> "" /\ strip r = r.

(** A buffered line: not empty, and without a backtick. *)
Definition buffer_ok (s : string) : Prop :=
  s <> "" /\ contains "`" s = false.

(** A paragraph block holds no backtick; the other blocks are not
    constrained. *)
Definition paragraph_ok (b : Block) : Prop :=
  match b with
  | Paragraph text => contains "`" text = false
  | _ => True
  end.

Definition buffers_ok (st : PState) : Prop :=
  Forall paragraph_ok (body_content st)
  /\ Forall buffer_ok (current_paragraph st).

End SpecMore.

(** * Properties *)

#[local] Arguments Ascii.eqb : simpl never.
#[local] Arguments Nat.ltb : simpl never.

(** ** Facts about the built-ins *)

Module PyFacts.

Import Py.

Lemma str_eqb_eq (s t : string) : str_eqb s t = true <-> s = t.
Proof. apply String.eqb_eq. Qed.

Lemma str_eqb_neq (s t : string) : str_eqb s t = false <-> s <> t.
Proof. apply String.eqb_neq. Qed.

Lemma str_eqb_refl (s : string) : str_eqb s s = true.
Proof. apply String.eqb_refl. Qed.

Lemma truthy_true (s : string) : truthy s = true <-> s <> "".
Proof. destruct s; simpl; split; congruence. Qed.

Lemma truthy_false (s : string) : truthy s = false <-> s = "".
Proof. destruct s; simpl; split; congruence. Qed.

Lemma getitem0_truthy (s : string) :
  truthy s = true -> exists c, getitem0 s = Ok c.
Proof. destruct s as [|c s]; simpl; [discriminate | eauto]. Qed.

Lemma sapp_nil (t : string) : "" +:+ t = t.
Proof. reflexivity. Qed.

Lemma sapp_cons (c : ascii) (s t : string) :
  String c s +:+ t = String c (s +:+ t).
Proof. reflexivity. Qed.

Lemma sapp_empty_r (s : string) : s +:+ "" = s.
Proof.
  induction s as [|c s IH]; [reflexivity | now rewrite sapp_cons, IH].
Qed.

Lemma sapp_assoc (s t u : string) : (s +:+ t) +:+ u = s +:+ t +:+ u.
Proof.
  induction s as [|c s IH]; [reflexivity | now rewrite !sapp_cons, IH].
Qed.

Lemma join_nonempty (sep x : string) (xs : list string) :
  x <> "" -> join sep (x :: xs) <> "".
Proof.
  intros Hx. destruct x as [|c x]; [congruence |].
  destruct xs; simpl; rewrite ?sapp_cons; discriminate.
Qed.

(** A match of the group holds at least one character. *)
Lemma match_here_nonempty (d s g : string) :
  match_here d s = Some g -> g <> "".
Proof.
  unfold match_here. destruct (startswith s d); [| discriminate].
  destruct (slice_from (String.length d) s) as [|c s']; [discriminate |].
  destruct (dot c); [| discriminate].
  destruct (lazy_until d s'); intros [= <-]; discriminate.
Qed.

Lemma re_search_nonempty (d s g : string) :
  re_search_delimited d s = Some g -> g <> "".
Proof.
  induction s as [|c s IH]; simpl.
  - destruct (match_here d "") eqn:E; [| discriminate].
    intros [= <-]. eapply match_here_nonempty, E.
  - destruct (match_here d (String c s)) eqn:E; [| exact IH].
    intros [= <-]. eapply match_here_nonempty, E.
Qed.

Lemma startswith_hash_level (s : string) :
  startswith s "#" = true -> 1 <= TextParser.heading_level s.
Proof.
  destruct s as [|c s]; simpl; [discriminate |].
  rewrite andb_true_r. intros E. apply Ascii.eqb_eq in E. subst c.
  rewrite Ascii.eqb_refl. lia.
Qed.

Lemma startswith_app (p s : string) : startswith (p +:+ s) p = true.
Proof.
  induction p as [|a p IH]; [reflexivity |].
  rewrite sapp_cons. simpl. now rewrite Ascii.eqb_refl, IH.
Qed.

Lemma slice_from_app (p s : string) : slice_from (String.length p) (p +:+ s) = s.
Proof. induction p as [|a p IH]; [reflexivity | exact IH]. Qed.

Lemma contains_cons (p : string) (c : ascii) (s : string) :
  contains p (String c s) = startswith (String c s) p || contains p s.
Proof. reflexivity. Qed.

(** [c in s] is decided letter by letter. *)
Lemma contains_char_cons (c a : ascii) (s : string) :
  contains (String c "") (String a s)
  = Ascii.eqb c a || contains (String c "") s.
Proof. rewrite contains_cons. simpl. now rewrite andb_true_r. Qed.

Lemma contains_char_app (c : ascii) (s t : string) :
  contains (String c "") (s +:+ t)
  = contains (String c "") s || contains (String c "") t.
Proof.
  induction s as [|a s IH].
  - rewrite sapp_nil. reflexivity.
  - rewrite sapp_cons, !contains_char_cons, IH. now rewrite orb_assoc.
Qed.

Lemma contains_char_lstrip (c : ascii) (s : string) :
  contains (String c "") s = false ->
  contains (String c "") (lstrip s) = false.
Proof.
  induction s as [|a s IH]; [reflexivity |].
  simpl lstrip. destruct (isspace a); [| tauto].
  rewrite contains_char_cons. intros H.
  apply orb_false_iff in H as [_ H]. now apply IH.
Qed.

Lemma contains_char_rstrip (c : ascii) (s : string) :
  contains (String c "") s = false ->
  contains (String c "") (rstrip s) = false.
Proof.
  induction s as [|a s IH]; [reflexivity |].
  rewrite contains_char_cons. intros H.
  apply orb_false_iff in H as [Ha H]. specialize (IH H).
  simpl rstrip. destruct (rstrip s) as [|b r].
  - destruct (isspace a); [reflexivity |].
    rewrite contains_char_cons, Ha. reflexivity.
  - rewrite contains_char_cons, Ha. exact IH.
Qed.

Lemma contains_char_strip (c : ascii) (s : string) :
  contains (String c "") s = false ->
  contains (String c "") (strip s) = false.
Proof. intros H. now apply contains_char_rstrip, contains_char_lstrip. Qed.

(** No piece of [s.split(sep)] holds the separator. *)
Lemma split_no_sep (sep : ascii) (s l : string) :
  In l (split sep s) -> contains (String sep "") l = false.
Proof.
  revert l. induction s as [|a s IH]; intros l; simpl.
  - intros [<- | []]. reflexivity.
  - destruct (Ascii.eqb a sep) eqn:E.
    + intros [<- | H]; [reflexivity | now apply IH].
    + destruct (split sep s) as [|x xs].
      * intros [<- | []]. rewrite contains_char_cons.
        rewrite Ascii.eqb_sym, E. reflexivity.
      * intros [<- | H].
        -- rewrite contains_char_cons, Ascii.eqb_sym, E. simpl.
           apply IH. now left.
        -- apply IH. now right.
Qed.

Lemma split_nonempty (sep : ascii) (s : string) : split sep s <> [].
Proof.
  destruct s as [|a s]; simpl; [discriminate |].
  destruct (Ascii.eqb a sep); [discriminate |].
  destruct (split sep s); discriminate.
Qed.

(** The backtick survives [lower]. *)
Lemma lower_char_backtick (c : ascii) :
  Ascii.eqb "`" (lower_char c) = Ascii.eqb "`" c.
Proof. destruct c as [[] [] [] [] [] [] [] []]; reflexivity. Qed.

Lemma contains_backtick_lower (s : string) :
  contains "`" (lower s) = contains "`" s.
Proof.
  induction s as [|a s IH]; [reflexivity |].
  simpl lower. now rewrite !contains_char_cons, lower_char_backtick, IH.
Qed.

(** Whether two backticks open [String c (g ++ "`" ++ t)] does not depend on
    [t]. *)
Lemma startswith_dbl_cut (c : ascii) (g t : string) :
  startswith (String c (g +:+ "`" +:+ t)) "``"
  = startswith (String c (g +:+ "`")) "``".
Proof.
  destruct g as [|b g]; reflexivity.
Qed.

Lemma dot_of_contains (c : ascii) (s : string) :
  contains (String "010" "") (String c s) = false -> dot c = true.
Proof.
  rewrite contains_char_cons. intros H.
  apply orb_false_iff in H as [H _]. unfold dot.
  now rewrite Ascii.eqb_sym, H.
Qed.

(** The lazy group stops at the first pair of backticks. *)
Lemma lazy_until_dbl (g post : string) :
  contains "``" (g +:+ "`") = false ->
  contains (String "010" "") g = false ->
  lazy_until "``" (g +:+ "``" +:+ post) = Some g.
Proof.
  induction g as [|c g IH]; intros Hd Hn.
  - rewrite sapp_nil. destruct post; reflexivity.
  - rewrite sapp_cons in Hd. rewrite sapp_cons. rewrite contains_cons in Hd.
    apply orb_false_iff in Hd as [Hs Hd].
    change ("``" +:+ post) with ("`" +:+ "`" +:+ post).
    unfold lazy_until; fold lazy_until.
    rewrite startswith_dbl_cut, Hs.
    rewrite (dot_of_contains _ _ Hn).
    rewrite contains_char_cons in Hn. apply orb_false_iff in Hn as [_ Hn].
    change ("`" +:+ "`" +:+ post) with ("``" +:+ post).
    now rewrite IH.
Qed.

Lemma match_here_dbl (inner post : string) :
  inner <> "" ->
  contains "``" (inner +:+ "`") = false ->
  contains (String "010" "") inner = false ->
  match_here "``" ("``" +:+ inner +:+ "``" +:+ post) = Some inner.
Proof.
  intros Hne Hd Hn. destruct inner as [|c g]; [congruence |].
  unfold match_here. rewrite startswith_app, slice_from_app.
  rewrite sapp_cons in *. rewrite (dot_of_contains _ _ Hn).
  rewrite contains_cons in Hd. apply orb_false_iff in Hd as [_ Hd].
  rewrite contains_char_cons in Hn. apply orb_false_iff in Hn as [_ Hn].
  now rewrite lazy_until_dbl.
Qed.

Lemma match_here_startswith (d s g : string) :
  match_here d s = Some g -> startswith s d = true.
Proof. unfold match_here. destruct (startswith s d); congruence. Qed.

Lemma match_here_none (d s : string) :
  startswith s d = false -> match_here d s = None.
Proof. unfold match_here. now intros ->. Qed.

(** The search skips a prefix in which the delimiter does not start. *)
Lemma re_search_dbl_skip (pre rest : string) :
  contains "``" (pre +:+ "`") = false ->
  re_search_delimited "``" (pre +:+ "`" +:+ rest)
  = re_search_delimited "``" ("`" +:+ rest).
Proof.
  induction pre as [|c pre IH]; intros Hd; [reflexivity |].
  rewrite sapp_cons in *. rewrite contains_cons in Hd.
  apply orb_false_iff in Hd as [Hs Hd].
  unfold re_search_delimited; fold re_search_delimited.
  rewrite match_here_none; [now apply IH |].
  now rewrite startswith_dbl_cut.
Qed.

Lemma re_search_dbl (pre inner post : string) :
  contains "``" (pre +:+ "`") = false ->
  inner <> "" ->
  contains "``" (inner +:+ "`") = false ->
  contains (String "010" "") inner = false ->
  re_search_delimited "``" (pre +:+ "``" +:+ inner +:+ "``" +:+ post)
  = Some inner.
Proof.
  intros Hp Hne Hd Hn.
  change ("``" +:+ inner +:+ "``" +:+ post)
    with ("`" +:+ "`" +:+ inner +:+ "``" +:+ post).
  rewrite re_search_dbl_skip by exact Hp.
  change ("`" +:+ "`" +:+ inner +:+ "``" +:+ post)
    with ("``" +:+ inner +:+ "``" +:+ post).
  pose proof (match_here_dbl inner post Hne Hd Hn) as Hm.
  change ("``" +:+ inner +:+ "``" +:+ post)
    with (String "`" ("`" +:+ inner +:+ "``" +:+ post)) in *.
  unfold re_search_delimited; fold re_search_delimited. now rewrite Hm.
Qed.

(** Without the delimiter there is nothing to find. *)
Lemma re_search_absent (d s : string) :
  contains d s = false -> re_search_delimited d s = None.
Proof.
  induction s as [|c s IH]; simpl; intros H.
  - rewrite orb_false_r in H. now rewrite match_here_none.
  - apply orb_false_iff in H as [Hs H].
    rewrite match_here_none by exact Hs. now apply IH.
Qed.

Lemma lazy_until_absent (d s : string) :
  contains d s = false -> lazy_until d s = None.
Proof.
  induction s as [|c s IH]; simpl; intros H.
  - rewrite orb_false_r in H. now rewrite H.
  - apply orb_false_iff in H as [Hs H]. rewrite Hs, (IH H).
    now destruct (dot c).
Qed.

Lemma contains_dbl_single (s : string) :
  contains "`" s = false -> contains "``" s = false.
Proof.
  induction s as [|c s IH]; [reflexivity |].
  rewrite contains_char_cons, contains_cons. intros H.
  apply orb_false_iff in H as [Hc H]. rewrite (IH H), orb_false_r.
  simpl. now rewrite Hc.
Qed.

(** A line with exactly one backtick holds no formula. *)
Lemma re_search_single_backtick (a b : string) :
  contains "`" a = false -> contains "`" b = false ->
  re_search_delimited "`" (a +:+ "`" +:+ b) = None.
Proof.
  intros Ha Hb. induction a as [|c a IH].
  - rewrite sapp_nil. change ("`" +:+ b) with (String "`" b).
    unfold re_search_delimited; fold re_search_delimited.
    replace (match_here "`" (String "`" b)) with (@None string).
    + now apply re_search_absent.
    + unfold match_here. simpl. destruct b as [|c b]; [reflexivity |].
      rewrite contains_char_cons in Hb. apply orb_false_iff in Hb as [_ Hb].
      rewrite (lazy_until_absent _ _ Hb). now destruct (dot c).
  - rewrite contains_char_cons in Ha. apply orb_false_iff in Ha as [Hc Ha].
    rewrite sapp_cons.
    unfold re_search_delimited; fold re_search_delimited.
    rewrite match_here_none; [now apply IH |].
    simpl. now rewrite Hc.
Qed.

Lemma endswith_nil (p : string) : endswith "" p = str_eqb "" p.
Proof. apply orb_false_r. Qed.

Lemma endswith_cons (c : ascii) (s p : string) :
  endswith (String c s) p = str_eqb (String c s) p || endswith s p.
Proof. reflexivity. Qed.

(** [s.endswith(p)] holds when [s] is some text followed by [p]. *)
Lemma endswith_spec (s p : string) :
  endswith s p = true <-> exists t, s = t +:+ p.
Proof.
  split.
  - induction s as [|c s IH].
    + rewrite endswith_nil. intros H. apply str_eqb_eq in H.
      exists "". now rewrite sapp_nil.
    + rewrite endswith_cons. intros H. apply orb_true_iff in H as [H | H].
      * apply str_eqb_eq in H. exists "". now rewrite sapp_nil.
      * destruct (IH H) as [t ->]. exists (String c t). now rewrite sapp_cons.
  - intros [t ->]. induction t as [|c t IH].
    + rewrite sapp_nil. destruct p.
      * reflexivity.
      * now rewrite endswith_cons, str_eqb_refl.
    + now rewrite sapp_cons, endswith_cons, IH, orb_true_r.
Qed.

(** One backtick alone never makes a pair. *)
Lemma contains_dbl_one_backtick (a b : string) :
  contains "`" a = false -> contains "`" b = false ->
  contains "``" (a +:+ "`" +:+ b) = false.
Proof.
  intros Ha Hb. change ("`" +:+ b) with (String "`" b).
  induction a as [|c a IH].
  - rewrite sapp_nil, contains_cons. rewrite (contains_dbl_single _ Hb).
    destruct b as [|d b]; [reflexivity |].
    rewrite contains_char_cons in Hb.
    apply orb_false_iff in Hb as [Hd _]. simpl. now rewrite Hd.
  - rewrite contains_char_cons in Ha.
    apply orb_false_iff in Ha as [Hca Ha].
    rewrite sapp_cons, contains_cons, (IH Ha), orb_false_r.
    simpl. now rewrite Hca.
Qed.

End PyFacts.

(** ** Facts about the parser *)

Module ParserFacts.

Import Py PyFacts TextParser Spec.

Lemma lookahead_ok (future : list string) (b : bool) :
  exists b', lookahead future b = Ok b'.
Proof.
  induction future as [|fl rest IH]; simpl; [eauto |].
  destruct (truthy (strip fl)) eqn:E; [| exact IH].
  destruct (getitem0_truthy _ E) as [c ->]. simpl. eauto.
Qed.

Lemma step_ok (lines : list string) (i : nat) (line : string) (st : PState) :
  exists st', step lines i line st = Ok st'.
Proof.
  unfold step.
  destruct (marker_test lines i (strip line)).
  { destruct (str_eqb (strip line) "---"); [| simpl; eauto].
    destruct (lookahead_ok (drop (i + 1) lines) (in_references st)) as [b ->].
    simpl. eauto. }
  destruct (in_references st); [eauto |].
  destruct (startswith (strip line) "#"); [eauto |].
  destruct (contains "``" (strip line) || contains "`" (strip line)).
  { destruct (formula_match (strip line)); eauto. }
  destruct (truthy (strip line) && negb (startswith (strip line) "---"));
    [eauto |].
  destruct (nonempty (current_paragraph st)); eauto.
Qed.

Lemma loop_ok (lines todo : list string) (i : nat) (st : PState) :
  exists st', loop lines i todo st = Ok st'.
Proof.
  revert i st. induction todo as [|line todo IH]; intros i st; simpl.
  - eauto.
  - destruct (step_ok lines i line st) as [st1 ->]. simpl. apply IH.
Qed.

Lemma flush_state_ok (st : PState) : state_ok st -> state_ok (flush st).
Proof.
  intros [Hb Hp]. unfold flush.
  destruct (current_paragraph st) as [|x xs] eqn:E; simpl.
  { split; [exact Hb | rewrite E; exact Hp]. }
  split; simpl; [| constructor].
  apply Forall_app. split; [exact Hb |].
  constructor; [| constructor].
  simpl. apply join_nonempty. now inversion Hp.
Qed.

Lemma emit_state_ok (b : Block) (st : PState) :
  block_ok b -> state_ok st -> state_ok (emit b st).
Proof.
  intros Hb [H1 H2]. split; simpl; [| exact H2].
  apply Forall_app. split; [exact H1 | now constructor].
Qed.

Lemma step_state_ok (lines : list string) (i : nat) (line : string)
  (st st' : PState) :
  state_ok st -> step lines i line st = Ok st' -> state_ok st'.
Proof.
  intros Hst. unfold step.
  destruct (marker_test lines i (strip line)).
  { destruct (str_eqb (strip line) "---").
    - destruct (lookahead_ok (drop (i + 1) lines) (in_references st))
        as [b ->].
      simpl. intros [= <-]. now apply flush_state_ok.
    - simpl. intros [= <-]. now apply flush_state_ok. }
  destruct (in_references st).
  { destruct (truthy (strip line)); intros [= <-]; [| exact Hst].
    destruct Hst. now split. }
  destruct (startswith (strip line) "#") eqn:Hh.
  { intros [= <-]. apply emit_state_ok; [| now apply flush_state_ok].
    simpl. apply startswith_hash_level in Hh. lia. }
  destruct (contains "``" (strip line) || contains "`" (strip line)).
  { destruct (formula_match (strip line)) as [f|] eqn:Hf;
      intros [= <-]; [| now apply flush_state_ok].
    apply emit_state_ok; [| now apply flush_state_ok].
    simpl. unfold formula_match in Hf.
    destruct (re_search_delimited "``" (strip line)) as [g|] eqn:Hg.
    - injection Hf as <-. eapply re_search_nonempty, Hg.
    - eapply re_search_nonempty, Hf. }
  destruct (truthy (strip line) && negb (startswith (strip line) "---"))
    eqn:Ht.
  { intros [= <-]. destruct Hst as [H1 H2]. split; simpl; [exact H1 |].
    apply Forall_app. split; [exact H2 |]. constructor; [| constructor].
    apply andb_true_iff in Ht as [Ht _]. now apply truthy_true. }
  destruct (nonempty (current_paragraph st)); intros [= <-];
    [now apply flush_state_ok | exact Hst].
Qed.

Lemma loop_state_ok (lines todo : list string) (i : nat) (st st' : PState) :
  state_ok st -> loop lines i todo st = Ok st' -> state_ok st'.
Proof.
  revert i st. induction todo as [|line todo IH]; intros i st Hst; simpl.
  - now intros [= <-].
  - destruct (step lines i line st) as [st1|e] eqn:E; simpl; [| discriminate].
    apply IH. eapply step_state_ok; eauto.
Qed.

Lemma init_state_ok : state_ok init.
Proof. split; constructor. Qed.

Lemma flush_eq (st : PState) :
  flush st
  = {| body_content := body_content st ++ paragraph_of (current_paragraph st);
       references := references st;
       in_references := in_references st;
       current_paragraph := [] |}.
Proof.
  unfold flush. destruct st as [b r f [|x xs]]; simpl; [| reflexivity].
  now rewrite app_nil_r.
Qed.

Lemma flush_idem (st : PState) : flush (flush st) = flush st.
Proof. rewrite (flush_eq st). reflexivity. Qed.

Lemma lookahead_spec (future : list string) (b : bool) :
  lookahead future b
  = Ok (b || match first_nonblank future with
             | Some s => starts_upper s
             | None => false
             end).
Proof.
  unfold first_nonblank.
  induction future as [|fl rest IH]; simpl.
  - now rewrite orb_false_r.
  - destruct (strip fl) as [|c s] eqn:E; simpl; [exact IH |].
    destruct (isupper c); [now rewrite orb_true_r | now rewrite orb_false_r].
Qed.

Lemma marker_test_iff (lines : list string) (i : nat) (s : string) :
  marker_test lines i s = true
  <-> lower s = "references" \/ (s = "---" /\ i + 1 < length lines).
Proof.
  unfold marker_test.
  rewrite orb_true_iff, andb_true_iff, !str_eqb_eq, Nat.ltb_lt. tauto.
Qed.

Lemma marker_test_false (lines : list string) (i : nat) (s : string) :
  lower s <> "references" -> ~ (s = "---" /\ i + 1 < length lines) ->
  marker_test lines i s = false.
Proof.
  intros H1 H2. destruct (marker_test lines i s) eqn:E; [| reflexivity].
  apply marker_test_iff in E. tauto.
Qed.

(** The flag changes in the branch of line 246 only. *)
Lemma step_flag (lines : list string) (i : nat) (line : string)
  (st st' : PState) :
  marker_test lines i (strip line) = false ->
  step lines i line st = Ok st' -> in_references st' = in_references st.
Proof.
  intros Hm. unfold step. rewrite Hm.
  destruct (in_references st) eqn:Hr.
  { destruct (truthy (strip line)); intros [= <-]; simpl; congruence. }
  destruct (startswith (strip line) "#").
  { intros [= <-]. simpl. unfold flush.
    destruct (nonempty (current_paragraph st)); simpl; congruence. }
  destruct (contains "``" (strip line) || contains "`" (strip line)).
  { destruct (formula_match (strip line)); intros [= <-]; simpl; unfold flush;
      destruct (nonempty (current_paragraph st)); simpl; congruence. }
  destruct (truthy (strip line) && negb (startswith (strip line) "---")).
  { intros [= <-]. simpl. congruence. }
  destruct (nonempty (current_paragraph st)) eqn:En; intros [= <-];
    [| congruence].
  unfold flush. rewrite En. simpl. congruence.
Qed.

Lemma step_marker (lines : list string) (i : nat) (line : string)
  (st : PState) :
  marker_test lines i (strip line) = true ->
  step lines i line st
  = Ok (flush (set_in_references
                 (str_eqb (lower (strip line)) "references"
                  || in_references st || upper_follows lines i) st)).
Proof.
  intros Hm. unfold step. rewrite Hm.
  destruct (str_eqb (strip line) "---") eqn:E.
  - apply str_eqb_eq in E. rewrite E.
    rewrite lookahead_spec. reflexivity.
  - destruct (str_eqb (lower (strip line)) "references") eqn:E2.
    + reflexivity.
    + unfold marker_test in Hm. rewrite E2, E in Hm. discriminate.
Qed.

Lemma backtick_not_marker (lines : list string) (i : nat) (s : string) :
  contains "`" s = true -> marker_test lines i s = false.
Proof.
  intros H. apply marker_test_false.
  - intros E. rewrite <- contains_backtick_lower, E in H. discriminate.
  - intros [-> _]. discriminate.
Qed.

Lemma step_backtick (lines : list string) (i : nat) (line : string)
  (st : PState) :
  in_references st = false ->
  startswith (strip line) "#" = false ->
  contains "`" (strip line) = true ->
  step lines i line st
  = Ok match formula_match (strip line) with
       | Some formula => emit (Math formula) (flush st)
       | None => flush st
       end.
Proof.
  intros Hr Hh Hb. unfold step.
  rewrite (backtick_not_marker _ _ _ Hb), Hr, Hh, Hb, orb_true_r.
  now destruct (formula_match (strip line)).
Qed.

Lemma loop_app (lines a b : list string) (i : nat) (st : PState) :
  loop lines i (a ++ b) st
  = (st' ← loop lines i a st; loop lines (i + length a) b st').
Proof.
  revert i st. induction a as [|x a IH]; intros i st; simpl.
  - now rewrite Nat.add_0_r.
  - destruct (step lines i x st) as [st1|e]; simpl; [| reflexivity].
    rewrite IH. now replace (S i + length a) with (i + S (length a)) by lia.
Qed.

Lemma set_in_references_same (st : PState) :
  set_in_references (in_references st) st = st.
Proof. now destruct st. Qed.

(** Inside the references section a line is skipped by the test of line 246
    or kept when it is not blank. *)
Lemma step_in_references (lines : list string) (i : nat) (line : string)
  (st : PState) :
  in_references st = true ->
  step lines i line st
  = Ok (if marker_test lines i (strip line) then flush st
        else if truthy (strip line) then add_reference (strip line) st
        else st).
Proof.
  intros Hr. destruct (marker_test lines i (strip line)) eqn:Hm.
  - rewrite step_marker by exact Hm. rewrite Hr, orb_true_r. simpl.
    now rewrite <- Hr, set_in_references_same.
  - unfold step. now rewrite Hm, Hr.
Qed.

Lemma loop_in_references (lines todo : list string) (i : nat) (st : PState) :
  in_references st = true ->
  exists st',
    loop lines i todo st = Ok st'
    /\ in_references st' = true
    /\ references st' = references st ++ kept_references lines i todo
    /\ body_content (flush st') = body_content (flush st).
Proof.
  revert i st. induction todo as [|line todo IH]; intros i st Hr; simpl.
  - exists st. now rewrite app_nil_r.
  - rewrite step_in_references by exact Hr. simpl.
    destruct (marker_test lines i (strip line)).
    + destruct (IH (S i) (flush st)) as (st' & H1 & H2 & H3 & H4).
      { rewrite flush_eq. exact Hr. }
      exists st'. rewrite H1, H2, H3, H4, flush_idem.
      rewrite (flush_eq st) at 1. simpl. auto.
    + destruct (truthy (strip line)).
      * destruct (IH (S i) (add_reference (strip line) st))
          as (st' & H1 & H2 & H3 & H4); [exact Hr |].
        exists st'. rewrite H1, H2, H3, H4. simpl.
        rewrite <- app_assoc. repeat split.
        rewrite !flush_eq. reflexivity.
      * destruct (IH (S i) st Hr) as (st' & H1 & H2 & H3 & H4).
        exists st'. auto.
Qed.

(** The buffer is empty whenever the parser is in the references section:
    the flag is set by a branch that flushes, and nothing is buffered after
    it. *)
Lemma step_buffer_in_references (lines : list string) (i : nat)
  (line : string) (st st' : PState) :
  (in_references st = true -> current_paragraph st = []) ->
  step lines i line st = Ok st' ->
  in_references st' = true -> current_paragraph st' = [].
Proof.
  intros Hinv. destruct (marker_test lines i (strip line)) eqn:Hm.
  - rewrite step_marker by exact Hm. intros [= <-] _.
    now rewrite flush_eq.
  - intros Hs Hr. pose proof (step_flag _ _ _ _ _ Hm Hs) as Hf.
    rewrite Hr in Hf. symmetry in Hf.
    rewrite step_in_references in Hs by exact Hf. rewrite Hm in Hs.
    destruct (truthy (strip line)); injection Hs as <-; auto.
Qed.

Lemma loop_buffer_in_references (lines todo : list string) (i : nat)
  (st st' : PState) :
  (in_references st = true -> current_paragraph st = []) ->
  loop lines i todo st = Ok st' ->
  in_references st' = true -> current_paragraph st' = [].
Proof.
  revert i st. induction todo as [|line todo IH]; intros i st Hinv; simpl.
  - intros [= <-]. exact Hinv.
  - destruct (step lines i line st) as [st1|e] eqn:E; simpl; [| discriminate].
    apply IH. eapply step_buffer_in_references; eauto.
Qed.

(** Every block that [parse] returns is well formed in the sense of
    [block_ok]: a heading has a level from 1 to 5, a paragraph and a formula
    have a text that is not empty. *)
Lemma parse_blocks_ok (raw_text : string) :
  exists body refs,
    parse raw_text = Ok (body, refs) /\ Forall block_ok body.
Proof.
  unfold parse.
  destruct (loop_ok (split "010" raw_text) (split "010" raw_text) 0 init)
    as [st Hst].
  rewrite Hst. simpl. eexists _, _. split; [reflexivity |].
  apply (flush_state_ok st). eapply loop_state_ok; [| exact Hst].
  apply init_state_ok.
Qed.

End ParserFacts.

(** ** The parser: the claims *)

Module ParserSpec.

Import Py PyFacts TextParser Spec ParserFacts.

(** C9. [parse] is total: for every input text it returns a pair of body
    blocks and references and never raises; the empty text gives no body
    block and no reference. *)
Theorem parse_total :
  (forall raw_text : string,
     exists body refs, parse raw_text = Ok (body, refs))
  /\ parse "" = Ok ([], []).
Proof.
  split; [| reflexivity].
  intros raw_text. unfold parse.
  destruct (loop_ok (split "010" raw_text) (split "010" raw_text) 0 init)
    as [st ->].
  simpl. eauto.
Qed.

(** C5. The parser emits a heading whose text is empty for a line that holds
    nothing but ['#'] characters and white space: the invariant that every
    emitted block has a text that is not empty fails on the heading path.
    (The level bound and the paragraph and formula texts do satisfy it:
    [ParserFacts.parse_blocks_ok].) *)
Theorem empty_heading_text :
  parse "#" = Ok ([Heading 1 ""], [])
  /\ parse (text_of_lines ["intro"; "####   "; "more"])
     = Ok ([Paragraph "intro"; Heading 4 ""; Paragraph "more"], []).
Proof. split; reflexivity. Qed.

(** C1, amended. Line [i] of [lines] is handled by the branch of line 246
    exactly when its trimmed lower-case content is "references", or its
    trimmed content is "---" and a line follows it. That branch always
    flushes the paragraph buffer (a paragraph of the buffered lines joined
    by single spaces) and skips the line without emitting it. It sets
    [in_references] for a "references" line; for a "---" line the flag
    becomes true when the first line after it that is not blank starts
    with an uppercase character, and keeps its value otherwise. A line
    that is not handled by the branch leaves the flag as it was. *)
Theorem marker_branch (lines : list string) (i : nat) (line : string)
  (st : PState) :
  (lower (strip line) = "references" ->
   step lines i line st
   = Ok {| body_content :=
             body_content st ++ paragraph_of (current_paragraph st);
           references := references st;
           in_references := true;
           current_paragraph := [] |})
  /\ (strip line = "---" -> i + 1 < length lines ->
      step lines i line st
      = Ok {| body_content :=
                body_content st ++ paragraph_of (current_paragraph st);
              references := references st;
              in_references := in_references st || upper_follows lines i;
              current_paragraph := [] |})
  /\ (lower (strip line) <> "references" ->
      ~ (strip line = "---" /\ i + 1 < length lines) ->
      exists st', step lines i line st = Ok st'
                  /\ in_references st' = in_references st).
Proof.
  repeat split.
  - intros H. rewrite step_marker by (apply marker_test_iff; tauto).
    rewrite H. simpl. now rewrite flush_eq.
  - intros H Hi. rewrite step_marker by (apply marker_test_iff; tauto).
    rewrite H. simpl. now rewrite flush_eq.
  - intros H1 H2. destruct (step_ok lines i line st) as [st' Hst].
    exists st'. split; [exact Hst |].
    eapply step_flag; [| exact Hst]. now apply marker_test_false.
Qed.

(** C1 as stated fails: a "---" line whose next line starts with a
    lowercase character is still taken by the branch. In the body it
    flushes the buffer, so the lines around it make two paragraphs; in the
    references section it is consumed and does not become an entry. *)
Lemma rule_before_lowercase_line :
  upper_follows ["a"; "---"; "b"] 1 = false
  /\ step ["a"; "---"; "b"] 1 "---"
       {| body_content := []; references := [];
          in_references := false; current_paragraph := ["a"] |}
     = Ok {| body_content := [Paragraph "a"]; references := [];
             in_references := false; current_paragraph := [] |}
  /\ parse (text_of_lines ["a"; "---"; "b"])
     = Ok ([Paragraph "a"; Paragraph "b"], [])
  /\ parse (text_of_lines ["References"; "---"; "b"]) = Ok ([], ["b"]).
Proof. repeat split. Qed.

(** C2, amended. Outside the references section, a line that is not a
    heading and holds a backtick always flushes the paragraph buffer,
    whether a delimited span matches or not; it emits a formula block only
    when a span matches, and its own text is never buffered, so the lines
    after it start a new paragraph. A line with a single backtick holds no
    span. *)
Theorem backtick_line (lines : list string) (i : nat) (line : string)
  (st : PState) :
  in_references st = false ->
  startswith (strip line) "#" = false ->
  contains "`" (strip line) = true ->
  step lines i line st
  = Ok {| body_content :=
            body_content st ++ paragraph_of (current_paragraph st)
            ++ match formula_match (strip line) with
               | Some formula => [Math formula]
               | None => []
               end;
          references := references st;
          in_references := false;
          current_paragraph := [] |}
  /\ (forall a b : string,
        strip line = a +:+ "`" +:+ b ->
        contains "`" a = false -> contains "`" b = false ->
        formula_match (strip line) = None).
Proof.
  intros Hr Hh Hb. split.
  - rewrite step_backtick by assumption.
    destruct (formula_match (strip line)); rewrite flush_eq; unfold emit;
      simpl; rewrite Hr, ?app_nil_r, <- ?app_assoc; reflexivity.
  - intros a b -> Ha Hc. unfold formula_match.
    rewrite re_search_absent.
    + now apply re_search_single_backtick.
    + now apply contains_dbl_one_backtick.
Qed.

Lemma backtick_line_witness :
  step ["b`c"] 0 "b`c"
    {| body_content := []; references := [];
       in_references := false; current_paragraph := ["a"] |}
  = Ok {| body_content := [Paragraph "a"]; references := [];
          in_references := false; current_paragraph := [] |}
  /\ formula_match "b`c" = None.
Proof.
  destruct (backtick_line ["b`c"] 0 "b`c"
              {| body_content := []; references := [];
                 in_references := false; current_paragraph := ["a"] |}
              eq_refl eq_refl eq_refl) as [H1 H2].
  split; [exact H1 |].
  exact (H2 "b" "c" eq_refl eq_refl eq_refl).
Defined.

(** C2 as stated fails: the line with one backtick matches no span and yet
    flushes the buffer, so the lines around it do not join. *)
Lemma unmatched_backtick_flushes :
  formula_match "b`c" = None
  /\ parse (text_of_lines ["a"; "b`c"; "d"])
     = Ok ([Paragraph "a"; Paragraph "d"], [])
  /\ parse (text_of_lines ["a"; "d"]) = Ok ([Paragraph "a d"], []).
Proof. repeat split. Qed.

(** C3, amended. Let [front] be the lines read so far and [back] the lines
    that remain, and let [in_references] be true after [front]. Then no
    body block is added any more, and the references of the result are the
    ones collected so far followed by the lines of [back], trimmed and in
    order, that are not blank and are not taken by the branch of line 246,
    which is tried first on every line: a line whose trimmed lower-case
    content is "references", and a "---" line that has a line after it, are
    skipped; a "---" that is the last line is kept. *)
Theorem references_section (raw_text : string) (front back : list string)
  (st : PState) :
  split "010" raw_text = front ++ back ->
  loop (front ++ back) 0 front init = Ok st ->
  in_references st = true ->
  parse raw_text
  = Ok (body_content st,
        references st ++ kept_references (front ++ back) (length front) back).
Proof.
  intros Hsplit Hloop Hr.
  assert (Hbuf : current_paragraph st = []).
  { eapply loop_buffer_in_references; [| exact Hloop | exact Hr].
    discriminate. }
  destruct (loop_in_references (front ++ back) back (length front) st Hr)
    as (st' & H1 & _ & H3 & H4).
  unfold parse. rewrite Hsplit, loop_app, Hloop. simpl. rewrite H1. simpl.
  rewrite H4, !flush_eq, Hbuf. simpl. now rewrite app_nil_r, H3.
Qed.

Lemma references_section_witness :
  parse (text_of_lines ["p"; "References"; "A"; ""; "---"; "B"; "---"])
  = Ok ([Paragraph "p"], [] ++ ["A"; "B"; "---"]).
Proof.
  exact (references_section
           (text_of_lines ["p"; "References"; "A"; ""; "---"; "B"; "---"])
           ["p"; "References"] ["A"; ""; "---"; "B"; "---"]
           {| body_content := [Paragraph "p"]; references := [];
              in_references := true; current_paragraph := [] |}
           eq_refl eq_refl eq_refl).
Defined.

(** C3 as stated fails: inside the references section the lines
    "references" and "---" (the latter with a line after it) are dropped,
    not appended. *)
Lemma marker_lines_inside_references :
  parse (text_of_lines ["References"; "A"; "references"; "B"; "---"; "C"])
  = Ok ([], ["A"; "B"; "C"]).
Proof. reflexivity. Qed.

(** C8 as stated fails: a heading line and a line of the references
    section that hold a balanced double-backtick span give a heading and a
    reference entry, and no formula block. *)
Lemma span_outside_the_formula_rule :
  formula_match "# ``x``" = Some "x"
  /\ parse "# ``x``" = Ok ([Heading 1 "``x``"], [])
  /\ parse (text_of_lines ["References"; "``x``"]) = Ok ([], ["``x``"]).
Proof. repeat split. Qed.

(** C8, amended. Let the trimmed line [i] of a text be [pre], two
    backticks, [inner], two backticks, [post], where [inner] is not empty
    and neither [pre] nor [inner] holds two adjacent backticks or ends with
    a backtick (the opening pair is the first one of the line, the closing
    pair the next one). Then the formula extracted from the line is exactly
    [inner], the double-backtick search being tried before the
    single-backtick one; and when the parser is outside the references
    section and the line is not a heading, the step flushes the buffer and
    emits the formula block [Math inner]. *)
Theorem double_backtick_formula (raw_text : string) (i : nat)
  (line pre inner post : string) (st : PState) :
  split "010" raw_text !! i = Some line ->
  strip line = pre +:+ "``" +:+ inner +:+ "``" +:+ post ->
  contains "``" (pre +:+ "`") = false ->
  inner <> "" ->
  contains "``" (inner +:+ "`") = false ->
  formula_match (strip line) = Some inner
  /\ (in_references st = false ->
      startswith (strip line) "#" = false ->
      step (split "010" raw_text) i line st
      = Ok {| body_content :=
                body_content st ++ paragraph_of (current_paragraph st)
                ++ [Math inner];
              references := references st;
              in_references := false;
              current_paragraph := [] |}).
Proof.
  intros Hi Hs Hp Hne Hd.
  assert (Hn : contains (String "010" "") inner = false).
  { assert (H : contains (String "010" "") (strip line) = false).
    { apply contains_char_strip, (split_no_sep _ raw_text).
      apply list_elem_of_In. eapply list_elem_of_lookup_2, Hi. }
    rewrite Hs, !contains_char_app in H.
    repeat (apply orb_false_iff in H as [? H]). assumption. }
  assert (Hf : formula_match (strip line) = Some inner).
  { unfold formula_match. rewrite Hs.
    now rewrite re_search_dbl. }
  split; [exact Hf |].
  intros Hr Hh.
  assert (Hb : contains "`" (strip line) = true).
  { rewrite Hs, !contains_char_app. simpl. now rewrite orb_true_r. }
  rewrite step_backtick by assumption.
  rewrite Hf, flush_eq. unfold emit. simpl.
  now rewrite Hr, <- app_assoc.
Qed.

Lemma double_backtick_formula_witness :
  formula_match (strip "  see `x` then ``a`b`` and ``c``  ") = Some "a`b"
  /\ (false = false ->
      startswith (strip "  see `x` then ``a`b`` and ``c``  ") "#" = false ->
      step (split "010"
              (text_of_lines ["p"; "  see `x` then ``a`b`` and ``c``  "]))
           1 "  see `x` then ``a`b`` and ``c``  "
           {| body_content := []; references := [];
              in_references := false; current_paragraph := ["p"] |}
      = Ok {| body_content := [] ++ [Paragraph "p"] ++ [Math "a`b"];
              references := [];
              in_references := false;
              current_paragraph := [] |}).
Proof.
  apply (double_backtick_formula
           (text_of_lines ["p"; "  see `x` then ``a`b`` and ``c``  "])
           1 "  see `x` then ``a`b`` and ``c``  "
           "see `x` then " "a`b" " and ``c``"
           {| body_content := []; references := [];
              in_references := false; current_paragraph := ["p"] |});
    [reflexivity | reflexivity | reflexivity | discriminate | reflexivity].
Defined.

(** C10, amended. Let the last line of a text be "---" once trimmed, and
    let [st] be the state of the parser when it reaches that line. The line
    is not taken by the branch of line 246 and is not buffered as paragraph
    text. Outside the references section it does what a blank line does
    there: it flushes the buffer and adds nothing of its own. Inside the
    references section, where a blank line is ignored, it is appended to
    the references as the entry "---". *)
Theorem final_rule (raw_text : string) (front : list string) (line : string) :
  split "010" raw_text = front ++ [line] ->
  strip line = "---" ->
  exists st,
    loop (front ++ [line]) 0 front init = Ok st
    /\ parse raw_text
       = Ok (body_content st ++ paragraph_of (current_paragraph st),
             references st ++ (if in_references st then ["---"] else []))
    /\ step (front ++ [line]) (length front) line st
       = Ok (if in_references st then add_reference "---" st else flush st)
    /\ (forall blank : string,
          strip blank = "" ->
          step (front ++ [line]) (length front) blank st
          = Ok (if in_references st then st else flush st)).
Proof.
  intros Hsplit Hl.
  destruct (loop_ok (front ++ [line]) front 0 init) as [st Hst].
  exists st. split; [exact Hst |].
  assert (Hm : forall l, strip l = "---" \/ strip l = "" ->
                 marker_test (front ++ [line]) (length front) (strip l) = false).
  { intros l Hl'. apply marker_test_false.
    - destruct Hl' as [-> | ->]; discriminate.
    - rewrite length_app. simpl. lia. }
  assert (Hstep : step (front ++ [line]) (length front) line st
          = Ok (if in_references st then add_reference "---" st else flush st)).
  { unfold step. rewrite Hm by tauto. rewrite Hl.
    destruct (in_references st); [reflexivity |].
    unfold flush. destruct (current_paragraph st); reflexivity. }
  split; [| split; [exact Hstep |]].
  - unfold parse. rewrite Hsplit, loop_app, Hst. simpl.
    rewrite Hstep. simpl.
    destruct (in_references st); rewrite !flush_eq; simpl;
      [reflexivity |].
    now rewrite !app_nil_r.
  - intros blank Hb. unfold step. rewrite Hm by tauto. rewrite Hb.
    destruct (in_references st); [reflexivity |].
    unfold flush. destruct (current_paragraph st); reflexivity.
Qed.

Lemma final_rule_witness :
  exists st,
    loop (["References"; "A"] ++ ["---"]) 0 ["References"; "A"] init = Ok st
    /\ parse (text_of_lines ["References"; "A"; "---"])
       = Ok (body_content st ++ paragraph_of (current_paragraph st),
             references st ++ (if in_references st then ["---"] else []))
    /\ step (["References"; "A"] ++ ["---"]) 2 "---" st
       = Ok (if in_references st then add_reference "---" st else flush st)
    /\ (forall blank : string,
          strip blank = "" ->
          step (["References"; "A"] ++ ["---"]) 2 blank st
          = Ok (if in_references st then st else flush st)).
Proof.
  exact (final_rule (text_of_lines ["References"; "A"; "---"])
           ["References"; "A"] "---" eq_refl eq_refl).
Defined.

(** C10 as stated fails: in the references section the last line "---"
    becomes a reference entry, where a blank last line adds nothing. In the
    body the two agree. *)
Lemma final_rule_in_references :
  parse (text_of_lines ["References"; "A"; "---"]) = Ok ([], ["A"; "---"])
  /\ parse (text_of_lines ["References"; "A"; ""]) = Ok ([], ["A"])
  /\ parse (text_of_lines ["p"; "---"]) = Ok ([Paragraph "p"], [])
  /\ parse (text_of_lines ["p"; ""]) = Ok ([Paragraph "p"], []).
Proof. repeat split. Qed.

End ParserSpec.

(** ** Facts about the formatter *)

Module FormatterFacts.

Import Py PyFacts Docx APAFormatter Spec SpecMore.

Lemma bind_run {A B : Type} (m : M A) (k : A -> M B) (doc : Document) :
  (m ≫= k) doc
  = match m doc with
    | (doc', Ok a) => k a doc'
    | (doc', Raise e) => (doc', Raise e)
    end.
Proof. reflexivity. Qed.

Lemma ret_run {A : Type} (a : A) (doc : Document) :
  (mret a : M A) doc = (doc, Ok a).
Proof. reflexivity. Qed.

Lemma bind_assoc_run {A B C : Type} (m : M A) (f : A -> M B) (g : B -> M C)
  (doc : Document) :
  ((m ≫= f) ≫= g) doc = (m ≫= fun a => f a ≫= g) doc.
Proof. rewrite !bind_run. now destruct (m doc) as [d [a|e]]. Qed.

Lemma bind_ext_run {A B : Type} (m : M A) (f g : A -> M B) (doc : Document) :
  (forall a d, f a d = g a d) -> (m ≫= f) doc = (m ≫= g) doc.
Proof. intros H. rewrite !bind_run. now destruct (m doc) as [d [a|e]]. Qed.

Lemma ret_bind_run {A B : Type} (a : A) (k : A -> M B) (doc : Document) :
  (mret a ≫= k) doc = k a doc.
Proof. reflexivity. Qed.

Lemma bind_ret_run {A : Type} (m : M A) (doc : Document) :
  (m ≫= fun a => mret a) doc = m doc.
Proof. rewrite bind_run. now destruct (m doc) as [d [a|e]]. Qed.

(** *** Text that XML can hold *)

Lemma xml_compatible_app (s t : string) :
  xml_compatible (s +:+ t) = xml_compatible s && xml_compatible t.
Proof.
  induction s as [|c s IH]; [reflexivity |].
  rewrite sapp_cons. cbn [xml_compatible]. now rewrite IH, andb_assoc.
Qed.

Lemma tab_or_break_xml_char (c : ascii) :
  tab_or_break c = true -> xml_char c = true.
Proof.
  unfold tab_or_break, xml_char. cbv zeta.
  destruct (code c =? 9)%N, (code c =? 10)%N, (code c =? 13)%N;
    rewrite ?orb_true_r; (reflexivity || discriminate).
Qed.

(** The assignment of a text returns exactly when XML can hold the buffer
    and the text. *)
Lemma set_text_from_returns (bfr s : string) :
  snd (set_text_from bfr s) = xml_compatible bfr && xml_compatible s.
Proof.
  revert bfr. induction s as [|c s IH]; intros bfr; cbn [set_text_from].
  - cbn [xml_compatible]. rewrite andb_true_r.
    now destruct (xml_compatible bfr).
  - cbn [xml_compatible]. destruct (tab_or_break c) eqn:E.
    + rewrite (tab_or_break_xml_char _ E). simpl andb.
      destruct (xml_compatible bfr); [| reflexivity].
      specialize (IH EmptyString).
      destruct (set_text_from EmptyString s) as [w ok]. exact IH.
    + rewrite IH, xml_compatible_app. cbn [xml_compatible].
      now rewrite andb_true_r, andb_assoc.
Qed.

(** When it returns, the whole text is in the run. *)
Lemma set_text_from_ok (bfr s : string) :
  xml_compatible bfr = true -> xml_compatible s = true ->
  set_text_from bfr s = (bfr +:+ s, true).
Proof.
  revert bfr. induction s as [|c s IH]; intros bfr Hb Hs;
    cbn [set_text_from].
  - now rewrite Hb, sapp_empty_r.
  - cbn [xml_compatible] in Hs. apply andb_true_iff in Hs as [Hc Hs].
    destruct (tab_or_break c).
    + rewrite Hb, (IH EmptyString eq_refl Hs). now rewrite sapp_nil.
    + rewrite IH; [| | exact Hs].
      * now rewrite sapp_assoc, sapp_cons, sapp_nil.
      * rewrite xml_compatible_app, Hb. cbn [xml_compatible].
        now rewrite Hc.
Qed.

Lemma set_text_ok (text : string) :
  xml_compatible text = true -> set_text text = (text, true).
Proof. intros H. unfold set_text. now rewrite set_text_from_ok. Qed.

Lemma set_text_fails (text : string) :
  xml_compatible text = false -> snd (set_text text) = false.
Proof. intros H. unfold set_text. now rewrite set_text_from_returns, H. Qed.

(** *** The calls of the library on the paragraph added last *)

Lemma alter_last {A : Type} (f : A -> A) (l : list A) (x : A) :
  alter f (length l) (l ++ [x]) = l ++ [f x].
Proof.
  replace (length l) with (length l + 0) at 1 by lia.
  now rewrite alter_app_r.
Qed.

Lemma lookup_last {A : Type} (l : list A) (x : A) :
  (l ++ [x]) !! length l = Some x.
Proof. now apply list_lookup_middle. Qed.

Lemma para_set_push (f : Para -> Para) (p : Para) (doc : Document) :
  para_set (length (paragraphs doc)) f (push p doc) = (push (f p) doc, Ok tt).
Proof.
  unfold para_set, modify, push, set_paragraphs. simpl.
  now rewrite alter_last.
Qed.

Lemma add_run_push (c : RunContent) (p : Para) (doc : Document) :
  run_content_ok c ->
  add_run (length (paragraphs doc)) c (push p doc)
  = (push (set_runs (runs p ++ [mkRun c None None]) p) doc,
     Ok (length (runs p))).
Proof.
  intros Hc. unfold add_run, push, set_paragraphs. simpl.
  rewrite lookup_last, alter_last.
  destruct c as [text | |]; try reflexivity.
  now rewrite (set_text_ok _ Hc), alter_last.
Qed.

(** A text that XML cannot hold: the run is attached, and [ValueError] is
    raised. *)
Lemma add_run_raises (text : string) (p : Para) (doc : Document) :
  xml_compatible text = false ->
  snd (add_run (length (paragraphs doc)) (Text text) (push p doc))
  = Raise ValueError.
Proof.
  intros Hc. unfold add_run, push, set_paragraphs. simpl.
  rewrite lookup_last. pose proof (set_text_fails _ Hc) as H.
  destruct (set_text text) as [w ok]. simpl in H. now rewrite H.
Qed.

Lemma add_paragraph_run (text : string) (doc : Document) :
  xml_compatible text = true ->
  add_paragraph text doc
  = (push (text_para text) doc, Ok (length (paragraphs doc))).
Proof.
  intros Ht. unfold add_paragraph. destruct text as [|c t]; [reflexivity |].
  cbn [truthy]. now rewrite (add_run_push (Text (String c t)) empty_para).
Qed.

Lemma add_paragraph_raises (text : string) (doc : Document) :
  xml_compatible text = false ->
  snd (add_paragraph text doc) = Raise ValueError.
Proof.
  intros Ht. unfold add_paragraph. destruct text as [|c t]; [discriminate |].
  cbn [truthy]. pose proof (add_run_raises _ empty_para doc Ht) as H.
  destruct (add_run _ _ _) as [d [a|e]]; simpl in *; congruence.
Qed.

Lemma runs_0_push (p : Para) (doc : Document) :
  runs_0 (length (paragraphs doc)) (push p doc)
  = (push p doc, match runs p with
                 | [] => Raise IndexError
                 | _ :: _ => Ok 0
                 end).
Proof.
  unfold runs_0, push, set_paragraphs. simpl. rewrite lookup_last.
  now destruct (runs p).
Qed.

Lemma run_set_push (r : nat) (f : Run -> Run) (p : Para) (doc : Document) :
  run_set (length (paragraphs doc)) r f (push p doc)
  = (push (set_runs (alter f r (runs p)) p) doc, Ok tt).
Proof. unfold run_set. now rewrite para_set_push. Qed.

Ltac xml_side := first [assumption | exact I | reflexivity].

Ltac run_doc :=
  repeat first
    [ rewrite bind_run
    | rewrite ret_run
    | progress cbv beta iota
    | rewrite add_paragraph_run by xml_side
    | rewrite para_set_push
    | rewrite add_run_push by xml_side
    | rewrite runs_0_push
    | rewrite run_set_push
    | progress cbn [runs set_runs set_alignment set_left_indent
                    set_first_line_indent text_para empty_para truthy
                    length app alignment left_indent first_line_indent
                    alter list_alter set_bold set_italic content bold
                    italic Nat.eqb negb] ].

Lemma level_4_5 (level : nat) :
  level = 4 \/ level = 5 -> bool_decide (level ∈ [4; 5]) = true.
Proof. intros [-> | ->]; reflexivity. Qed.

Lemma next_of_lookup (body_content : list Block) (i : nat) :
  next_of body_content i = body_content !! (i + 1).
Proof.
  unfold next_of. destruct (i + 1 <? length body_content) eqn:E;
    [reflexivity |].
  apply Nat.ltb_ge in E. symmetry. now apply lookup_ge_None_2.
Qed.

Lemma run_in_heading_run (level : nat) (text next_text : string)
  (doc : Document) :
  xml_compatible text = true -> xml_compatible next_text = true ->
  run_in_heading level text next_text doc
  = (push (run_in_para level text next_text) doc, Ok tt).
Proof.
  intros Ht Hn.
  assert (Hh : xml_compatible (text +:+ ". ") = true)
    by now rewrite xml_compatible_app, Ht.
  unfold run_in_heading, when, run_in_para, heading_run.
  run_doc. destruct (level =? 5); run_doc; reflexivity.
Qed.

Lemma text_para_text (text : string) :
  text <> "" -> text_para text = set_runs [plain_run text] empty_para.
Proof. destruct text; [congruence | reflexivity]. Qed.

Lemma standalone_heading_run (level : nat) (text : string) (doc : Document) :
  level = 4 \/ level = 5 -> text <> "" -> xml_compatible text = true ->
  regular_heading level text doc
  = (push (standalone_para level text) doc, Ok tt).
Proof.
  intros Hl Ht Hx. unfold regular_heading, when, standalone_para, heading_run.
  rewrite (level_4_5 _ Hl). rewrite bind_run, add_paragraph_run by exact Hx.
  rewrite (text_para_text _ Ht).
  destruct Hl as [-> | ->]; run_doc;
    destruct (endswith text "."); run_doc; reflexivity.
Qed.

Lemma empty_heading_raises (level : nat) (doc : Document) :
  1 <= level <= 5 ->
  snd (regular_heading level "" doc) = Raise IndexError.
Proof.
  intros Hl. unfold regular_heading.
  assert (H : level = 1 \/ level = 2 \/ level = 3 \/ level = 4 \/ level = 5)
    by lia.
  destruct H as [-> | [-> | [-> | [-> | ->]]]];
    rewrite ?level_4_5 by lia; run_doc; reflexivity.
Qed.

Lemma title_page_missing (title_data : gmap string string) (doc : Document) :
  title_data !! "title" = None ->
  _create_title_page title_data doc
  = (push (set_alignment CENTER empty_para)
       (push empty_para (push empty_para (push empty_para doc))),
     Raise (KeyError "title")).
Proof.
  intros H. unfold _create_title_page, getitem. rewrite H.
  simpl for_each. run_doc. reflexivity.
Qed.

Lemma modify_run (f : Document -> Document) (doc : Document) :
  modify f doc = (f doc, Ok tt).
Proof. reflexivity. Qed.

Lemma bind_inv {A B : Type} (m : M A) (k : A -> M B) (doc doc' : Document)
  (b : B) :
  (m ≫= k) doc = (doc', Ok b) ->
  exists a doc1, m doc = (doc1, Ok a) /\ k a doc1 = (doc', Ok b).
Proof.
  rewrite bind_run. destruct (m doc) as [doc1 [a|e]]; [eauto | discriminate].
Qed.

Lemma bind_ret_inv {A B : Type} (m : M A) (v : B) (doc doc' : Document)
  (b : B) :
  (m ≫= fun _ => mret v) doc = (doc', Ok b) -> b = v.
Proof.
  intros H. apply bind_inv in H as (a & doc1 & _ & H).
  rewrite ret_run in H. congruence.
Qed.

(** Every iteration moves the cursor forward, by one block or by two. *)
Lemma body_step_advance (body_content : list Block) (i i' : nat)
  (doc doc' : Document) :
  body_step body_content i doc = (doc', Ok i') -> i < i' <= i + 2.
Proof.
  unfold body_step. destruct (body_content !! i) as [[level text|text|f]|].
  - destruct (if bool_decide (level ∈ [4; 5])
              then is_paragraph (next_of body_content i) else None);
      intros H; apply bind_ret_inv in H; lia.
  - intros H. apply bind_inv in H as (a & doc1 & _ & H).
    apply bind_ret_inv in H. lia.
  - intros H. apply bind_inv in H as (a & doc1 & _ & H).
    apply bind_inv in H as (a2 & doc2 & _ & H).
    apply bind_inv in H as (a3 & doc3 & _ & H).
    apply bind_ret_inv in H. lia.
  - discriminate.
Qed.

(** With as many iterations as there are blocks the loop ends by its own
    test. *)
Lemma while_body_exits (fuel : nat) (body_content : list Block) (i j : nat)
  (doc doc' : Document) :
  length body_content <= i + fuel ->
  while_body fuel body_content i doc = (doc', Ok j) ->
  length body_content <= j.
Proof.
  revert i doc. induction fuel as [|fuel IH]; intros i doc Hf; simpl.
  - rewrite ret_run. intros [= _ <-]. lia.
  - destruct (i <? length body_content) eqn:E.
    + intros H. apply bind_inv in H as (i' & doc1 & Hs & H).
      apply body_step_advance in Hs. apply (IH i' doc1); [lia | exact H].
    + rewrite ret_run. intros [= _ <-]. now apply Nat.ltb_ge in E.
Qed.

Lemma title_page_raises (title_data : gmap string string)
  (body_content : list Block) (references : list string) :
  title_data !! "title" = None ->
  create_document title_data body_content references
  = (push (set_alignment CENTER empty_para)
       (push empty_para (push empty_para (push empty_para
          (fst ((_ ← _set_document_defaults;
                 _ ← _set_margins;
                 _add_page_numbers) new_Document))))),
     Raise (KeyError "title")).
Proof.
  intros H. unfold create_document.
  unfold _set_document_defaults, _set_margins, _add_page_numbers.
  rewrite !bind_run, !modify_run. cbv beta iota.
  rewrite !bind_run, !modify_run. cbv beta iota.
  rewrite !bind_run, !modify_run. cbv beta iota.
  rewrite bind_run, (title_page_missing _ _ H). reflexivity.
Qed.

(** At a level 4 or level 5 heading that is not followed by a paragraph
    block and whose text is not empty, the iteration adds one paragraph with
    left indent 0.5 inch whose first run is the heading text, bold, and
    italic as well at level 5; a run "." follows exactly when the text does
    not end with "." ([standalone_para]). The text is one that XML can
    hold. *)
Lemma standalone_heading_period (body_content : list Block) (i level : nat)
  (text : string) (doc : Document) :
  body_content !! i = Some (Heading level text) ->
  level = 4 \/ level = 5 ->
  is_paragraph (body_content !! (i + 1)) = None ->
  text <> "" ->
  xml_compatible text = true ->
  body_step body_content i doc
  = (push (standalone_para level text) doc, Ok (i + 1)).
Proof.
  intros Hi Hl Hn Ht Hx. unfold body_step.
  rewrite Hi, next_of_lookup, Hn, (level_4_5 _ Hl).
  cbv iota. rewrite bind_run, standalone_heading_run by assumption.
  reflexivity.
Qed.

Lemma standalone_heading_example :
  body_step [Heading 4 "Done."; Heading 4 "Open"] 1 new_Document
  = (push (standalone_para 4 "Open") new_Document, Ok (1 + 1)).
Proof.
  apply (standalone_heading_period [Heading 4 "Done."; Heading 4 "Open"] 1 4
           "Open" new_Document);
    [reflexivity | left; reflexivity | reflexivity | discriminate
    | reflexivity].
Qed.

(** A heading without text, as the parser emits it for a line of ['#']
    characters, stops the formatter: the paragraph has no run to make
    bold. *)
Lemma empty_heading_not_rendered :
  snd (create_apa_document (<["title" := "T"]> ∅) "#" "out.docx" ∅)
  = Raise IndexError.
Proof. reflexivity. Qed.

(** *** The loop of [_create_body] as a recursion on the blocks *)

Lemma heading_step_render (m : M unit) (i n : nat) (k : nat -> M unit)
  (rest : M unit) (doc : Document) :
  (forall d, k (i + n) d = rest d) ->
  ((_ ← m; mret (i + n)) ≫= k) doc = (_ ← m; rest) doc.
Proof.
  intros Hk. rewrite bind_assoc_run. apply bind_ext_run. intros _ d.
  now rewrite ret_bind_run.
Qed.

Lemma body_step_render (body_content : list Block) (i : nat)
  (k : nat -> M unit) (doc : Document) :
  i < length body_content ->
  (forall j d, i < j -> k j d = render (drop j body_content) d) ->
  (body_step body_content i ≫= k) doc = render (drop i body_content) doc.
Proof.
  intros Hlt Hk.
  destruct (lookup_lt_is_Some_2 body_content i Hlt) as [b Hb].
  unfold body_step. rewrite Hb, next_of_lookup, (drop_S _ _ _ Hb).
  replace (S i) with (i + 1) by lia.
  destruct b as [level text | text | formula].
  - assert (Hone : forall d,
              k (i + 1) d = render (drop (i + 1) body_content) d)
      by (intros d; apply Hk; lia).
    destruct (body_content !! (i + 1)) as [[l2 t2 | next_text | f2]|] eqn:Hn;
      cbn [is_paragraph].
    + assert (E : (if bool_decide (level ∈ [4; 5]) then None
                   else @None string) = None)
        by now destruct (bool_decide _).
      rewrite E, (heading_step_render _ _ _ _ _ _ Hone).
      now rewrite (drop_S _ _ _ Hn).
    + destruct (bool_decide (level ∈ [4; 5])) eqn:E45.
      * rewrite (drop_S _ _ _ Hn). cbn [render]. rewrite E45.
        apply heading_step_render. intros d.
        rewrite Hk by lia. now replace (S (i + 1)) with (i + 2) by lia.
      * rewrite (heading_step_render _ _ _ _ _ _ Hone).
        rewrite (drop_S _ _ _ Hn). cbn [render]. now rewrite E45.
    + assert (E : (if bool_decide (level ∈ [4; 5]) then None
                   else @None string) = None)
        by now destruct (bool_decide _).
      rewrite E, (heading_step_render _ _ _ _ _ _ Hone).
      now rewrite (drop_S _ _ _ Hn).
    + assert (E : (if bool_decide (level ∈ [4; 5]) then None
                   else @None string) = None)
        by now destruct (bool_decide _).
      rewrite E, (heading_step_render _ _ _ _ _ _ Hone).
      apply lookup_ge_None_1 in Hn. now rewrite drop_ge by lia.
  - cbn [render]. unfold paragraph_block.
    rewrite !bind_assoc_run. apply bind_ext_run. intros para d.
    rewrite bind_assoc_run. apply bind_ext_run. intros _ d'.
    rewrite ret_bind_run. apply Hk. lia.
  - cbn [render]. unfold math_block.
    rewrite !bind_assoc_run. apply bind_ext_run. intros para d.
    rewrite !bind_assoc_run. apply bind_ext_run. intros _ d1.
    rewrite !bind_assoc_run. apply bind_ext_run. intros r d2.
    rewrite !bind_assoc_run. apply bind_ext_run. intros _ d3.
    rewrite ret_bind_run. apply Hk. lia.
Qed.

Lemma while_body_render (fuel : nat) (body_content : list Block) (i : nat)
  (doc : Document) :
  length body_content <= i + fuel ->
  (_ ← while_body fuel body_content i; mret tt) doc
  = render (drop i body_content) doc.
Proof.
  revert i doc. induction fuel as [|fuel IH]; intros i doc Hf.
  - cbn [while_body]. now rewrite ret_bind_run, drop_ge by lia.
  - cbn [while_body]. destruct (i <? length body_content) eqn:E.
    + apply Nat.ltb_lt in E. rewrite bind_assoc_run.
      apply body_step_render; [exact E |].
      intros j d Hj. apply IH. lia.
    + apply Nat.ltb_ge in E. now rewrite ret_bind_run, drop_ge by lia.
Qed.

(** [_create_body] renders the blocks from the first one on. *)
Lemma create_body_render (body_content : list Block) (doc : Document) :
  _create_body body_content doc = render body_content doc.
Proof.
  unfold _create_body.
  now rewrite (while_body_render _ body_content 0) by lia.
Qed.

Lemma render_heading (level : nat) (text : string) (rest : list Block) :
  render (Heading level text :: rest)
  = match (if bool_decide (level ∈ [4; 5]) then is_paragraph (head rest)
           else None) with
    | Some next_text =>
        _ ← run_in_heading level text next_text; render (tail rest)
    | None => _ ← regular_heading level text; render rest
    end.
Proof.
  destruct rest as [|[l2 t2 | next_text | f2] rest];
    cbn [render head tail is_paragraph];
    destruct (bool_decide (level ∈ [4; 5])); reflexivity.
Qed.

(** Blocks that are followed by a block other than a paragraph are rendered
    as they are alone; the blocks after them are rendered next. *)
Lemma render_app (front rest : list Block) (doc : Document) :
  is_paragraph (head rest) = None ->
  render (front ++ rest) doc = (_ ← render front; render rest) doc.
Proof.
  intros Hr. remember (length front) as n eqn:Hn.
  revert front Hn doc. induction n as [n IH] using lt_wf_ind.
  intros front Hn doc.
  destruct front as [|[level text | text | formula] front]; cbn [app].
  - reflexivity.
  - rewrite !render_heading.
    destruct front as [|b front]; cbn [app head tail].
    + rewrite Hr. cbn [is_paragraph].
      assert (E : (if bool_decide (level ∈ [4; 5]) then None
                   else @None string) = None)
        by now destruct (bool_decide _).
      rewrite E, bind_assoc_run. now apply bind_ext_run.
    + destruct (if bool_decide (level ∈ [4; 5]) then is_paragraph (Some b)
                else None) as [next_text|];
        rewrite bind_assoc_run; apply bind_ext_run; intros _ d.
      * apply (IH (length front)); [subst n; simpl; lia | reflexivity].
      * apply (IH (length (b :: front)) ltac:(subst n; simpl; lia)
                 (b :: front) eq_refl).
  - cbn [render]. rewrite bind_assoc_run. apply bind_ext_run. intros _ d.
    apply (IH (length front)); [subst n; simpl; lia | reflexivity].
  - cbn [render]. rewrite bind_assoc_run. apply bind_ext_run. intros _ d.
    apply (IH (length front)); [subst n; simpl; lia | reflexivity].
Qed.

End FormatterFacts.

(** ** The formatter: the claims *)

Module FormatterSpec.

Import Py PyFacts Docx APAFormatter Spec SpecMore FormatterFacts.

(** C6, amended. Take a block sequence in which a level 4 or level 5
    heading is followed by a paragraph block, where XML can hold the text of
    the heading and the text of the paragraph, and [_create_body] renders
    the blocks before the heading without raising. Then the iteration of
    the loop at the heading adds exactly one paragraph to the document: a
    first run with the heading text followed by ". ", bold, and italic as
    well at level 5; a second run with the text of the paragraph block; left
    indent 0.5 inch and first-line indent 0. The cursor moves by two, past
    the heading and the paragraph, and [_create_body] on the whole sequence
    is [_create_body] on the blocks after the paragraph, started from the
    document that holds the blocks before the heading and that one
    paragraph. *)
Theorem run_in_merge (front back : list Block) (level : nat)
  (text next_text : string) (doc doc1 : Document) :
  level = 4 \/ level = 5 ->
  xml_compatible text = true ->
  xml_compatible next_text = true ->
  _create_body front doc = (doc1, Ok tt) ->
  body_step (front ++ Heading level text :: Paragraph next_text :: back)
    (length front) doc1
  = (push (run_in_para level text next_text) doc1, Ok (length front + 2))
  /\ _create_body (front ++ Heading level text :: Paragraph next_text :: back)
       doc
     = _create_body back (push (run_in_para level text next_text) doc1).
Proof.
  intros Hl Ht Hn Hfront. split.
  - unfold body_step. rewrite next_of_lookup.
    rewrite list_lookup_middle by reflexivity.
    rewrite (lookup_app_r front) by lia.
    replace (length front + 1 - length front) with 1 by lia.
    cbn [lookup list_lookup is_paragraph]. rewrite (level_4_5 _ Hl).
    rewrite bind_run, run_in_heading_run by assumption. reflexivity.
  - rewrite create_body_render in Hfront. rewrite !create_body_render.
    rewrite render_app by reflexivity.
    rewrite bind_run, Hfront. cbn [render]. rewrite (level_4_5 _ Hl).
    rewrite bind_run, run_in_heading_run by assumption. reflexivity.
Qed.

Lemma run_in_merge_witness :
  body_step
    ([Heading 1 "Intro"]
     ++ Heading 5 "Findings" :: Paragraph "Data show." :: [Paragraph "q"])
    (length [Heading 1 "Intro"])
    (push (heading_para 1 "Intro") new_Document)
  = (push (run_in_para 5 "Findings" "Data show.")
       (push (heading_para 1 "Intro") new_Document),
     Ok (length [Heading 1 "Intro"] + 2))
  /\ _create_body
       ([Heading 1 "Intro"]
        ++ Heading 5 "Findings" :: Paragraph "Data show." :: [Paragraph "q"])
       new_Document
     = _create_body [Paragraph "q"]
         (push (run_in_para 5 "Findings" "Data show.")
            (push (heading_para 1 "Intro") new_Document)).
Proof.
  apply (run_in_merge [Heading 1 "Intro"] [Paragraph "q"] 5 "Findings"
           "Data show." new_Document
           (push (heading_para 1 "Intro") new_Document));
    [right; reflexivity | reflexivity | reflexivity | reflexivity].
Defined.

(** C6 as stated fails on a heading text that XML cannot hold. The text
    "#### a" followed by the character U+0001, with the line "p" after it,
    parses to a level 4 heading and a paragraph block; for them the library
    refuses the text of the first run with [ValueError] once the paragraph
    and the run are attached, so that no merged paragraph is produced and
    [create_apa_document] raises. *)
Lemma run_in_control_character :
  TextParser.parse (text_of_lines ["#### a" +:+ String "001" ""; "p"])
  = Ok ([Heading 4 ("a" +:+ String "001" ""); Paragraph "p"], [])
  /\ _create_body [Heading 4 ("a" +:+ String "001" ""); Paragraph "p"]
       new_Document
     = (push {| runs := [plain_run ""]; alignment := None;
                left_indent := Some (Inches 1 2);
                first_line_indent := Some (Inches 0 1) |} new_Document,
        Raise ValueError)
  /\ snd (create_apa_document (<["title" := "T"]> ∅)
            (text_of_lines ["#### a" +:+ String "001" ""; "p"])
            "out.docx" ∅)
     = Raise ValueError.
Proof. repeat split. Qed.

(** C7. The claim fails on a heading without text, which the parser emits
    for a line of ['#'] characters ("####" gives a level 4 heading with the
    text ""): the text does not end with ".", and no period is appended,
    because [add_paragraph] creates no run for an empty text and
    [para.runs[0]] raises [IndexError] once the left indent is set. For
    every heading text that is not empty and that XML can hold the period
    is appended exactly when the text does not end with "."
    ([FormatterFacts.standalone_heading_period]). *)
Theorem standalone_empty_heading :
  TextParser.parse "####" = Ok ([Heading 4 ""], [])
  /\ endswith "" "." = false
  /\ body_step [Heading 4 ""] 0 new_Document
     = (push {| runs := []; alignment := None;
                left_indent := Some (Inches 1 2);
                first_line_indent := None |} new_Document,
        Raise IndexError)
  /\ snd (create_apa_document (<["title" := "T"]> ∅) "####" "out.docx" ∅)
     = Raise IndexError.
Proof. repeat split. Qed.

(** C4, amended. For every title data without the key "title",
    [create_document] fails with the [KeyError] of the lookup
    [title_data['title']], raised in the title page step: there is no
    validation before it. By then the defaults, the margins and the page
    number field are set and four paragraphs are in the document, three
    blank ones and the centred title paragraph, still without a run. The
    body and the references are not rendered, and [create_apa_document]
    raises the same error and saves nothing. *)
Theorem missing_title (title_data : gmap string string)
  (body_content : list Block) (references : list string) :
  title_data !! "title" = None ->
  exists doc,
    create_document title_data body_content references
    = (doc, Raise (KeyError "title"))
    /\ paragraphs doc
       = [empty_para; empty_para; empty_para; set_alignment CENTER empty_para]
    /\ forall (raw_text output_path : string) (fs : Files),
         create_apa_document title_data raw_text output_path fs
         = (fs, Raise (KeyError "title")).
Proof.
  intros H. eexists. split; [now apply title_page_raises |].
  split; [reflexivity |].
  intros raw_text output_path fs. unfold create_apa_document.
  destruct (ParserFacts.loop_ok (split "010" raw_text) (split "010" raw_text)
              0 TextParser.init) as [st Hst].
  unfold TextParser.parse. rewrite Hst. simpl.
  now rewrite (title_page_raises _ _ _ H).
Qed.

Lemma missing_title_witness :
  exists doc,
    create_document (<["author" := "Jane Doe"]> ∅) [Paragraph "p"] ["R"]
    = (doc, Raise (KeyError "title"))
    /\ paragraphs doc
       = [empty_para; empty_para; empty_para; set_alignment CENTER empty_para]
    /\ forall (raw_text output_path : string) (fs : Files),
         create_apa_document (<["author" := "Jane Doe"]> ∅) raw_text
           output_path fs
         = (fs, Raise (KeyError "title")).
Proof.
  exact (missing_title (<["author" := "Jane Doe"]> ∅) [Paragraph "p"] ["R"]
           eq_refl).
Defined.

(** C4 as stated fails: when the error is raised the document already
    holds content, four body paragraphs and the page number field of the
    header. *)
Lemma content_before_the_failure :
  snd (create_document ∅ [] []) = Raise (KeyError "title")
  /\ length (paragraphs (fst (create_document ∅ [] []))) = 4
  /\ header_paragraphs (fst (create_document ∅ [] []))
     = [{| runs := [mkRun (Field "PAGE") None None];
           alignment := Some RIGHT;
           left_indent := None; first_line_indent := None |}].
Proof. repeat split. Qed.

End FormatterSpec.

(** * Further properties *)

(** ** Further facts about the parser *)

Module MoreParserFacts.

Import Py PyFacts TextParser Spec SpecMore ParserFacts.

(** *** Trimming twice *)

Lemma rstrip_cons (c : ascii) (s : string) :
  rstrip (String c s)
  = match rstrip s with
    | EmptyString => if isspace c then EmptyString else String c EmptyString
    | r => String c r
    end.
Proof. reflexivity. Qed.

Lemma rstrip_idem (s : string) : rstrip (rstrip s) = rstrip s.
Proof.
  induction s as [|c s IH]; [reflexivity |].
  rewrite rstrip_cons. destruct (rstrip s) as [|b r] eqn:E.
  - destruct (isspace c) eqn:Ec; [reflexivity |].
    rewrite rstrip_cons. simpl rstrip. now rewrite Ec.
  - rewrite rstrip_cons, IH. reflexivity.
Qed.

Lemma lstrip_no_leading_space (s : string) : no_leading_space (lstrip s).
Proof.
  induction s as [|c s IH]; simpl; [exact I |].
  destruct (isspace c) eqn:E; [exact IH | exact E].
Qed.

Lemma rstrip_no_leading_space (s : string) :
  no_leading_space s -> no_leading_space (rstrip s).
Proof.
  destruct s as [|c s]; [trivial |]. simpl no_leading_space at 1.
  intros H. rewrite rstrip_cons.
  destruct (rstrip s); [rewrite H |]; exact H.
Qed.

Lemma lstrip_fixed (s : string) : no_leading_space s -> lstrip s = s.
Proof. destruct s as [|c s]; simpl; [trivial |]. now intros ->. Qed.

Lemma strip_idem (s : string) : strip (strip s) = strip s.
Proof.
  unfold strip. rewrite (lstrip_fixed (rstrip (lstrip s))).
  - apply rstrip_idem.
  - apply rstrip_no_leading_space, lstrip_no_leading_space.
Qed.

(** *** Heading lines *)

Lemma heading_level_hashes (k : nat) (rest : string) :
  startswith rest "#" = false ->
  heading_level (hashes k +:+ rest) = k.
Proof.
  intros H. induction k as [|k IH].
  - rewrite sapp_nil. destruct rest as [|c rest]; [reflexivity |].
    simpl in *. rewrite andb_true_r in H.
    rewrite Ascii.eqb_sym in H. now rewrite H.
  - simpl hashes. rewrite sapp_cons. simpl. now rewrite IH.
Qed.

Lemma slice_from_hashes (k : nat) (rest : string) :
  slice_from k (hashes k +:+ rest) = rest.
Proof.
  induction k as [|k IH]; [now destruct rest |]. exact IH.
Qed.

Lemma hash_not_marker (lines : list string) (i : nat) (s : string) :
  startswith s "#" = true -> marker_test lines i s = false.
Proof.
  destruct s as [|c s]; [discriminate |]. simpl.
  rewrite andb_true_r. intros H. apply Ascii.eqb_eq in H. subst c.
  reflexivity.
Qed.

Lemma step_heading (lines : list string) (i : nat) (line : string)
  (st : PState) :
  in_references st = false ->
  startswith (strip line) "#" = true ->
  step lines i line st
  = Ok (emit (Heading (Nat.min (heading_level (strip line)) 5)
                (strip (slice_from (heading_level (strip line)) (strip line))))
          (flush st)).
Proof.
  intros Hr Hh. unfold step.
  now rewrite (hash_not_marker _ _ _ Hh), Hr, Hh.
Qed.

(** *** Plain and blank lines *)

Lemma is_plain_parts (s : string) :
  is_plain s = true ->
  truthy s = true /\ lower s <> "references" /\ startswith s "---" = false
  /\ startswith s "#" = false /\ contains "`" s = false.
Proof.
  unfold is_plain. rewrite !andb_true_iff, !negb_true_iff, str_eqb_neq.
  tauto.
Qed.

Lemma startswith_self (s : string) : startswith s s = true.
Proof.
  induction s as [|c s IH]; [reflexivity |].
  simpl. now rewrite Ascii.eqb_refl, IH.
Qed.

Lemma step_plain (lines : list string) (i : nat) (line : string)
  (st : PState) :
  in_references st = false ->
  is_plain (strip line) = true ->
  step lines i line st = Ok (add_line (strip line) st).
Proof.
  intros Hr Hp. apply is_plain_parts in Hp as (Ht & Hl & Hd & Hh & Hb).
  unfold step. rewrite marker_test_false; [| exact Hl |].
  - rewrite Hr, Hh, (contains_dbl_single _ Hb), Hb, Ht, Hd. reflexivity.
  - intros [E _]. rewrite E in Hd. discriminate.
Qed.

Lemma step_blank (lines : list string) (i : nat) (line : string)
  (st : PState) :
  strip line = "" ->
  step lines i line st = Ok (if in_references st then st else flush st).
Proof.
  intros Hb. unfold step. rewrite Hb.
  rewrite marker_test_false by (try discriminate; intros [[=] _]).
  destruct (in_references st); [reflexivity |].
  unfold flush. destruct (current_paragraph st); reflexivity.
Qed.

Lemma loop_plain (lines todo : list string) (i : nat) (st : PState) :
  in_references st = false ->
  Forall (fun l => is_plain (strip l) = true) todo ->
  loop lines i todo st
  = Ok {| body_content := body_content st;
          references := references st;
          in_references := false;
          current_paragraph := current_paragraph st ++ map strip todo |}.
Proof.
  revert i st. induction todo as [|l todo IH]; intros i st Hr Hall.
  - simpl. rewrite app_nil_r, <- Hr. now destruct st.
  - inversion Hall as [|? ? Hl Hrest]; subst. simpl loop.
    rewrite step_plain by assumption. simpl.
    rewrite IH by assumption. simpl. now rewrite <- app_assoc.
Qed.

Lemma loop_blank (lines todo : list string) (i : nat) :
  Forall (fun l => strip l = "") todo ->
  loop lines i todo init = Ok init.
Proof.
  revert i. induction todo as [|l todo IH]; intros i Hall; [reflexivity |].
  inversion Hall; subst. simpl loop. rewrite step_blank by assumption.
  simpl. now apply IH.
Qed.

(** *** Texts without a line that enters the references *)

Lemma step_not_entering (lines : list string) (i : nat) (line : string)
  (st st' : PState) :
  enters lines i line = false ->
  in_references st = false -> references st = [] ->
  step lines i line st = Ok st' ->
  in_references st' = false /\ references st' = [].
Proof.
  intros He Hr Hrefs Hs.
  destruct (marker_test lines i (strip line)) eqn:Hm.
  - rewrite step_marker in Hs by exact Hm. injection Hs as <-.
    rewrite flush_eq. simpl. split; [| exact Hrefs].
    rewrite Hr. unfold enters in He. unfold marker_test in Hm.
    destruct (str_eqb (lower (strip line)) "references"); [discriminate |].
    simpl in *. rewrite Hm in He. simpl in He. exact He.
  - split.
    + rewrite <- Hr. eapply step_flag; eauto.
    + unfold step in Hs. rewrite Hm, Hr in Hs.
      repeat match type of Hs with
             | context [if ?b then _ else _] => destruct b
             | context [match ?o with Some _ => _ | None => _ end] =>
                 destruct o
             end;
        injection Hs as <-; unfold flush;
        try destruct (nonempty (current_paragraph st)); exact Hrefs.
Qed.

Lemma loop_not_entering (lines todo : list string) (i : nat)
  (st st' : PState) :
  (forall j line, todo !! j = Some line -> enters lines (i + j) line = false) ->
  in_references st = false -> references st = [] ->
  loop lines i todo st = Ok st' ->
  in_references st' = false /\ references st' = [].
Proof.
  revert i st. induction todo as [|l todo IH]; intros i st He Hr Hrefs.
  - simpl. intros [= <-]. auto.
  - simpl. destruct (step lines i l st) as [st1|e] eqn:E; [| discriminate].
    simpl. destruct (step_not_entering lines i l st st1) as [H1 H2]; auto.
    { specialize (He 0 l eq_refl). now rewrite Nat.add_0_r in He. }
    apply IH; auto.
    intros j line Hj. specialize (He (S j) line Hj).
    now replace (S i + j) with (i + S j) by lia.
Qed.

(** *** What the references and the paragraphs are made of *)

Lemma join_no_backtick (l : list string) :
  Forall buffer_ok l -> contains "`" (join " " l) = false.
Proof.
  induction l as [|x xs IH]; intros H; [reflexivity |].
  inversion H as [|? ? [_ Hx] Hxs]; subst.
  destruct xs as [|y ys]; [exact Hx |].
  change (join " " (x :: y :: ys)) with (x +:+ " " +:+ join " " (y :: ys)).
  rewrite !contains_char_app, Hx, (IH Hxs). reflexivity.
Qed.

Lemma step_references_ok (lines : list string) (i : nat) (line : string)
  (st st' : PState) :
  Forall reference_ok (references st) ->
  step lines i line st = Ok st' ->
  Forall reference_ok (references st').
Proof.
  intros H. unfold step.
  destruct (marker_test lines i (strip line)).
  { destruct (str_eqb (strip line) "---").
    - destruct (lookahead_ok (drop (i + 1) lines) (in_references st))
        as [b ->].
      simpl. intros [= <-]. now rewrite flush_eq.
    - simpl. intros [= <-]. now rewrite flush_eq. }
  destruct (in_references st).
  { destruct (truthy (strip line)) eqn:Ht; intros [= <-]; [| exact H].
    simpl. apply Forall_app. split; [exact H |].
    constructor; [| constructor]. split.
    - now apply truthy_true.
    - apply strip_idem. }
  repeat match goal with
         | |- context [if ?b then _ else _] => destruct b
         | |- context [match ?o with Some _ => _ | None => _ end] =>
             destruct o
         end;
    intros [= <-]; rewrite ?flush_eq; exact H.
Qed.

Lemma loop_references_ok (lines todo : list string) (i : nat)
  (st st' : PState) :
  Forall reference_ok (references st) ->
  loop lines i todo st = Ok st' ->
  Forall reference_ok (references st').
Proof.
  revert i st. induction todo as [|l todo IH]; intros i st H; simpl.
  - now intros [= <-].
  - destruct (step lines i l st) as [st1|e] eqn:E; simpl; [| discriminate].
    apply IH. eapply step_references_ok; eauto.
Qed.

Lemma flush_buffers_ok (st : PState) : buffers_ok st -> buffers_ok (flush st).
Proof.
  intros [Hb Hp]. rewrite flush_eq. split; simpl; [| constructor].
  apply Forall_app. split; [exact Hb |].
  pose proof (join_no_backtick _ Hp) as Hj.
  destruct (current_paragraph st) as [|x xs]; unfold paragraph_of;
    [constructor |].
  constructor; [exact Hj | constructor].
Qed.

Lemma emit_buffers_ok (b : Block) (st : PState) :
  paragraph_ok b -> buffers_ok st -> buffers_ok (emit b st).
Proof.
  intros Hb [H1 H2]. split; simpl; [| exact H2].
  apply Forall_app. split; [exact H1 | now constructor].
Qed.

Lemma step_buffers_ok (lines : list string) (i : nat) (line : string)
  (st st' : PState) :
  buffers_ok st -> step lines i line st = Ok st' -> buffers_ok st'.
Proof.
  intros Hst. unfold step.
  destruct (marker_test lines i (strip line)).
  { destruct (str_eqb (strip line) "---").
    - destruct (lookahead_ok (drop (i + 1) lines) (in_references st))
        as [b ->].
      simpl. intros [= <-]. now apply flush_buffers_ok.
    - simpl. intros [= <-]. now apply flush_buffers_ok. }
  destruct (in_references st).
  { destruct (truthy (strip line)); intros [= <-]; [| exact Hst].
    destruct Hst. now split. }
  destruct (startswith (strip line) "#").
  { intros [= <-]. apply emit_buffers_ok; [exact I |].
    now apply flush_buffers_ok. }
  destruct (contains "``" (strip line) || contains "`" (strip line)) eqn:Hb.
  { destruct (formula_match (strip line)); intros [= <-];
      [apply emit_buffers_ok; [exact I |] |]; now apply flush_buffers_ok. }
  destruct (truthy (strip line) && negb (startswith (strip line) "---"))
    eqn:Ht.
  { intros [= <-]. destruct Hst as [H1 H2]. split; simpl; [exact H1 |].
    apply Forall_app. split; [exact H2 |]. constructor; [| constructor].
    apply andb_true_iff in Ht as [Ht _].
    apply orb_false_iff in Hb as [_ Hb].
    split; [now apply truthy_true | exact Hb]. }
  destruct (nonempty (current_paragraph st)); intros [= <-];
    [now apply flush_buffers_ok | exact Hst].
Qed.

Lemma loop_buffers_ok (lines todo : list string) (i : nat) (st st' : PState) :
  buffers_ok st -> loop lines i todo st = Ok st' -> buffers_ok st'.
Proof.
  revert i st. induction todo as [|l todo IH]; intros i st H; simpl.
  - now intros [= <-].
  - destruct (step lines i l st) as [st1|e] eqn:E; simpl; [| discriminate].
    apply IH. eapply step_buffers_ok; eauto.
Qed.

(** *** The single-backtick search *)

(** The lazy group of the single-backtick search stops at the first
    backtick. *)
Lemma lazy_until_single (g post : string) :
  contains "`" g = false ->
  contains (String "010" "") g = false ->
  lazy_until "`" (g +:+ "`" +:+ post) = Some g.
Proof.
  induction g as [|c g IH]; intros Hb Hn.
  - rewrite sapp_nil. reflexivity.
  - rewrite sapp_cons. rewrite contains_char_cons in Hb.
    apply orb_false_iff in Hb as [Hc Hb].
    unfold lazy_until; fold lazy_until.
    replace (startswith (String c (g +:+ "`" +:+ post)) "`") with false
      by (simpl; now rewrite Hc).
    rewrite (dot_of_contains _ _ Hn).
    rewrite contains_char_cons in Hn. apply orb_false_iff in Hn as [_ Hn].
    now rewrite IH.
Qed.

Lemma re_search_single (pre inner post : string) :
  contains "`" pre = false ->
  inner <> "" ->
  contains "`" inner = false ->
  contains (String "010" "") inner = false ->
  re_search_delimited "`" (pre +:+ "`" +:+ inner +:+ "`" +:+ post)
  = Some inner.
Proof.
  intros Hp Hne Hb Hn. induction pre as [|c pre IH].
  - rewrite sapp_nil. destruct inner as [|d g]; [congruence |].
    change ("`" +:+ String d g +:+ "`" +:+ post)
      with (String "`" (String d (g +:+ "`" +:+ post))).
    unfold re_search_delimited, match_here. simpl startswith.
    rewrite ?Ascii.eqb_refl. simpl slice_from. cbv iota.
    rewrite (dot_of_contains _ _ Hn).
    rewrite contains_char_cons in Hb. apply orb_false_iff in Hb as [_ Hb].
    rewrite contains_char_cons in Hn. apply orb_false_iff in Hn as [_ Hn].
    now rewrite lazy_until_single.
  - rewrite contains_char_cons in Hp. apply orb_false_iff in Hp as [Hc Hp].
    rewrite sapp_cons.
    unfold re_search_delimited; fold re_search_delimited.
    rewrite match_here_none; [now apply IH |].
    simpl. now rewrite Hc.
Qed.

Lemma line_no_newline (raw_text : string) (i : nat) (line : string) :
  split "010" raw_text !! i = Some line ->
  contains (String "010" "") (strip line) = false.
Proof.
  intros Hi. apply contains_char_strip, (split_no_sep _ raw_text).
  apply list_elem_of_In. eapply list_elem_of_lookup_2, Hi.
Qed.

Lemma filter_references_ok (refs : list string) :
  Forall reference_ok refs ->
  List.filter truthy (map strip refs) = refs.
Proof.
  induction refs as [|r rs IH]; intros H; [reflexivity |].
  inversion H as [|? ? [Hne Hs] Hrs]; subst. simpl.
  rewrite Hs. apply truthy_true in Hne. rewrite Hne.
  now rewrite IH.
Qed.

Lemma parse_references_ok (raw_text : string) (body : list Block)
  (refs : list string) :
  parse raw_text = Ok (body, refs) -> Forall reference_ok refs.
Proof.
  unfold parse.
  destruct (loop (split "010" raw_text) 0 (split "010" raw_text) init)
    as [st|e] eqn:E; simpl; [| discriminate].
  intros [= _ <-]. rewrite flush_eq. simpl.
  eapply loop_references_ok; [| exact E]. constructor.
Qed.

End MoreParserFacts.

(** ** Further facts about the formatter *)

Module MoreFormatterFacts.

Import Py PyFacts Docx APAFormatter Spec SpecMore FormatterFacts.

Lemma push_all_nil (doc : Document) : push_all [] doc = doc.
Proof. unfold push_all, set_paragraphs. rewrite app_nil_r. now destruct doc. Qed.

Lemma push_all_push (p : Para) (ps : list Para) (doc : Document) :
  push_all ps (push p doc) = push_all (p :: ps) doc.
Proof.
  unfold push_all, push, set_paragraphs. simpl.
  now rewrite <- app_assoc.
Qed.

Lemma push_all_app (ps qs : list Para) (doc : Document) :
  push_all qs (push_all ps doc) = push_all (ps ++ qs) doc.
Proof.
  unfold push_all, set_paragraphs. simpl. now rewrite app_assoc.
Qed.

Lemma push_one (p : Para) (doc : Document) : push p doc = push_all [p] doc.
Proof. reflexivity. Qed.

(** A loop whose body appends paragraphs appends them all, in order. *)
Lemma for_each_push_all {A : Type} (f : A -> M unit) (g : A -> list Para)
  (l : list A) (doc : Document) :
  Forall (fun x => forall d, f x d = (push_all (g x) d, Ok tt)) l ->
  for_each f l doc = (push_all (flat_map g l) doc, Ok tt).
Proof.
  intros Hf. revert doc. induction Hf as [|x l Hx Hl IH]; intros doc; simpl.
  - now rewrite ret_run, push_all_nil.
  - now rewrite bind_run, Hx, IH, push_all_app.
Qed.

Lemma level_4_5_inv (level : nat) :
  bool_decide (level ∈ [4; 5]) = true -> level = 4 \/ level = 5.
Proof.
  intros E. apply bool_decide_eq_true_1 in E.
  apply list_elem_of_In in E. simpl in E. intuition auto.
Qed.

Lemma regular_heading_run (level : nat) (text : string) (doc : Document) :
  text <> "" ->
  xml_compatible text = true ->
  regular_heading level text doc = (push (heading_para level text) doc, Ok tt).
Proof.
  intros Ht Hx. destruct (bool_decide (level ∈ [4; 5])) eqn:E45.
  { apply level_4_5_inv in E45 as H.
    rewrite standalone_heading_run by assumption.
    unfold heading_para. destruct H as [-> | ->]; reflexivity. }
  unfold regular_heading, heading_para. rewrite E45.
  rewrite bind_run, add_paragraph_run, (text_para_text _ Ht) by exact Hx.
  destruct (level =? 1); [run_doc; reflexivity |].
  destruct (level =? 2); [run_doc; reflexivity |].
  destruct (level =? 3); [run_doc; reflexivity |].
  run_doc. reflexivity.
Qed.

(** Every iteration of the loop of [_create_body] appends one paragraph,
    the first one of [body_paras] for the blocks that remain. *)
Lemma body_step_run (body_content : list Block) (i : nat) (b : Block)
  (doc : Document) :
  Forall heading_text_ok body_content ->
  Forall block_xml_ok body_content ->
  body_content !! i = Some b ->
  exists k p,
    body_step body_content i doc = (push p doc, Ok (i + k))
    /\ 1 <= k
    /\ i + k <= length body_content
    /\ body_paras (drop i body_content)
       = p :: body_paras (drop (i + k) body_content).
Proof.
  intros Hok Hxml Hi. unfold body_step. rewrite Hi, next_of_lookup.
  pose proof (lookup_lt_Some _ _ _ Hi) as Hlt.
  rewrite (drop_S _ _ _ Hi). replace (S i) with (i + 1) by lia.
  rewrite Forall_lookup in Hxml. pose proof (Hxml i _ Hi) as Hx.
  destruct b as [level text | text | formula]; cbn [block_xml_ok] in Hx.
  - assert (Ht : text <> "").
    { rewrite Forall_lookup in Hok. exact (Hok i _ Hi). }
    destruct (body_content !! (i + 1)) as [[l2 t2 | next_text | f2]|] eqn:Hn;
      cbn [is_paragraph].
    + exists 1, (heading_para level text).
      rewrite (drop_S _ _ _ Hn).
      destruct (bool_decide (level ∈ [4; 5]));
        rewrite bind_run, regular_heading_run by assumption;
        repeat split; try lia; try reflexivity.
    + pose proof (lookup_lt_Some _ _ _ Hn) as Hlt2.
      pose proof (Hxml _ _ Hn) as Hx2. cbn [block_xml_ok] in Hx2.
      rewrite (drop_S _ _ _ Hn). cbn [body_paras].
      destruct (bool_decide (level ∈ [4; 5])).
      * exists 2, (run_in_para level text next_text).
        rewrite bind_run, run_in_heading_run by assumption.
        replace (S (i + 1)) with (i + 2) by lia.
        repeat split; try lia; try reflexivity.
      * exists 1, (heading_para level text).
        rewrite bind_run, regular_heading_run by assumption.
        rewrite (drop_S _ _ _ Hn).
        repeat split; try lia; try reflexivity.
    + exists 1, (heading_para level text).
      rewrite (drop_S _ _ _ Hn).
      destruct (bool_decide (level ∈ [4; 5]));
        rewrite bind_run, regular_heading_run by assumption;
        repeat split; try lia; try reflexivity.
    + exists 1, (heading_para level text).
      apply lookup_ge_None_1 in Hn.
      rewrite (drop_ge body_content (i + 1)) by lia.
      destruct (bool_decide (level ∈ [4; 5]));
        rewrite bind_run, regular_heading_run by assumption;
        repeat split; try lia; try reflexivity.
  - exists 1, (paragraph_para text).
    split; [| repeat split; try lia; try reflexivity].
    unfold paragraph_para. run_doc. destruct text; reflexivity.
  - exists 1, (math_para formula).
    split; [| repeat split; try lia; try reflexivity].
    unfold math_para. run_doc. reflexivity.
Qed.

Lemma while_body_run (fuel : nat) (body_content : list Block) (i : nat)
  (doc : Document) :
  Forall heading_text_ok body_content ->
  Forall block_xml_ok body_content ->
  length body_content <= i + fuel ->
  exists j,
    while_body fuel body_content i doc
    = (push_all (body_paras (drop i body_content)) doc, Ok j).
Proof.
  intros Hok Hxml. revert i doc.
  induction fuel as [|fuel IH]; intros i doc Hf.
  - exists i. simpl. rewrite ret_run, drop_ge by lia.
    now rewrite push_all_nil.
  - cbn [while_body]. destruct (i <? length body_content) eqn:E.
    + apply Nat.ltb_lt in E.
      destruct (lookup_lt_is_Some_2 body_content i E) as [b Hb].
      destruct (body_step_run body_content i b doc Hok Hxml Hb)
        as (k & p & Hs & Hk & Hle & Hp).
      destruct (IH (i + k) (push p doc)) as [j Hj]; [lia |].
      exists j. now rewrite bind_run, Hs, Hj, Hp, push_all_push.
    + apply Nat.ltb_ge in E. exists i.
      rewrite ret_run, drop_ge by lia. now rewrite push_all_nil.
Qed.

Lemma create_body_run (body_content : list Block) (doc : Document) :
  Forall heading_text_ok body_content ->
  Forall block_xml_ok body_content ->
  _create_body body_content doc
  = (push_all (body_paras body_content) doc, Ok tt).
Proof.
  intros Hok Hxml. unfold _create_body.
  destruct (while_body_run (length body_content) body_content 0 doc Hok Hxml)
    as [j Hj]; [lia |].
  now rewrite bind_run, Hj.
Qed.

Lemma title_line_run (title_data : gmap string string) (key : string)
  (doc : Document) :
  value_xml_ok title_data key ->
  title_line title_data key doc
  = (push_all (optional_line title_data key) doc, Ok tt).
Proof.
  unfold value_xml_ok, title_line, optional_line.
  destruct (title_data !! key) as [v|]; [| now rewrite ret_run, push_all_nil].
  cbn [from_option]. intros Hx.
  destruct v as [|c v]; cbn [truthy];
    [now rewrite ret_run, push_all_nil |].
  run_doc. reflexivity.
Qed.

Lemma blank_paragraphs_run (doc : Document) :
  for_each (fun _ : nat => _ ← add_paragraph ""; mret tt) (seq 0 3) doc
  = (push_all [empty_para; empty_para; empty_para] doc, Ok tt).
Proof.
  rewrite (for_each_push_all _ (fun _ => [empty_para])); [reflexivity |].
  apply Forall_forall. intros x _ d. run_doc. reflexivity.
Qed.

Lemma create_title_page_run (title_data : gmap string string) (title : string)
  (doc : Document) :
  title_data !! "title" = Some title ->
  xml_compatible title = true ->
  Forall (value_xml_ok title_data)
    ["author"; "institution"; "course"; "instructor"; "date"] ->
  _create_title_page title_data doc
  = (push_all (title_paras title_data title) doc, Ok tt).
Proof.
  intros H Hx Hv. unfold _create_title_page, getitem. rewrite H.
  rewrite bind_run, blank_paragraphs_run.
  run_doc.
  rewrite (for_each_push_all _ (optional_line title_data))
    by (eapply Forall_impl; [exact Hv | intros key Hk d;
                                        now apply title_line_run]).
  rewrite !push_one, !push_all_app. reflexivity.
Qed.

Lemma reference_entry_run (ref : string) (doc : Document) :
  xml_compatible (strip ref) = true ->
  reference_entry ref doc
  = (push_all (if truthy (strip ref) then [reference_para (strip ref)]
               else []) doc, Ok tt).
Proof.
  intros Hx. unfold reference_entry. destruct (strip ref) as [|c r] eqn:E;
    cbn [truthy]; [now rewrite ret_run, push_all_nil |].
  run_doc. reflexivity.
Qed.

Lemma flat_map_filter_map (references : list string) :
  flat_map (fun ref => if truthy (strip ref) then [reference_para (strip ref)]
                       else []) references
  = map reference_para (List.filter truthy (map strip references)).
Proof.
  induction references as [|r rs IH]; [reflexivity |].
  simpl. destruct (truthy (strip r)); simpl; now rewrite IH.
Qed.

Lemma reference_entries_run (references : list string) (doc : Document) :
  Forall (fun ref => xml_compatible (strip ref) = true) references ->
  for_each reference_entry references doc
  = (push_all (map reference_para (List.filter truthy (map strip references)))
       doc, Ok tt).
Proof.
  intros Hx. rewrite <- flat_map_filter_map.
  apply for_each_push_all.
  eapply Forall_impl; [exact Hx |]. intros ref Hr d.
  now apply reference_entry_run.
Qed.

Lemma create_references_run (references : list string) (doc : Document) :
  Forall (fun ref => xml_compatible (strip ref) = true) references ->
  _create_references references doc
  = (push_all (reference_paras references) doc, Ok tt).
Proof.
  intros Hx. unfold _create_references, reference_paras.
  destruct references as [|r rs]; cbn [nonempty];
    [now rewrite ret_run, push_all_nil |].
  run_doc.
  rewrite (reference_entries_run _ _ Hx), push_all_push. reflexivity.
Qed.

Lemma add_page_break_run (doc : Document) :
  add_page_break doc = (push page_break_para doc, Ok tt).
Proof. unfold add_page_break. run_doc. reflexivity. Qed.

Lemma settings_run :
  (_ ← _set_document_defaults; _ ← _set_margins; _add_page_numbers)
    new_Document
  = (apa_settings [], Ok tt).
Proof. reflexivity. Qed.

Lemma create_document_run (title_data : gmap string string) (title : string)
  (body_content : list Block) (references : list string) :
  title_data !! "title" = Some title ->
  xml_compatible title = true ->
  Forall (value_xml_ok title_data)
    ["author"; "institution"; "course"; "instructor"; "date"] ->
  Forall heading_text_ok body_content ->
  Forall block_xml_ok body_content ->
  Forall (fun ref => xml_compatible (strip ref) = true) references ->
  create_document title_data body_content references
  = (apa_settings
       (title_paras title_data title ++ [page_break_para]
        ++ body_paras body_content ++ [page_break_para]
        ++ reference_paras references),
     Ok tt).
Proof.
  intros Ht Hx Hv Hok Hb Hr. unfold create_document.
  unfold _set_document_defaults, _set_margins, _add_page_numbers.
  rewrite !bind_run, !modify_run. cbv beta iota.
  rewrite !bind_run, !modify_run. cbv beta iota.
  rewrite !bind_run, !modify_run. cbv beta iota.
  rewrite bind_run, (create_title_page_run _ _ _ Ht Hx Hv).
  rewrite bind_run, add_page_break_run, push_one, push_all_app.
  rewrite bind_run, create_body_run, push_all_app by assumption.
  rewrite bind_run, add_page_break_run, push_one, push_all_app.
  rewrite create_references_run, push_all_app by exact Hr.
  rewrite <- !app_assoc. reflexivity.
Qed.

(** References that are trimmed already. *)
Lemma references_ok_xml (refs : list string) :
  Forall reference_ok refs ->
  Forall (fun ref => xml_compatible ref = true) refs ->
  Forall (fun ref => xml_compatible (strip ref) = true) refs.
Proof.
  intros Hok Hx. induction Hok as [|r rs [_ Hr] Hrs IH]; [constructor |].
  apply Forall_cons in Hx as [Hx Hxs]. constructor; [| now apply IH].
  now rewrite Hr.
Qed.

End MoreFormatterFacts.

(** ** The parser: further properties *)

Module ParserMore.

Import Py PyFacts TextParser Spec SpecMore ParserFacts MoreParserFacts.

(** X1. Outside the references section, a line whose trimmed form is [k]
    characters ['#'], [k] at least 1, followed by a rest that does not
    start with ['#'], flushes the paragraph buffer and emits one heading:
    its level is [k], or 5 when [k] is larger, and its text is the rest,
    trimmed. *)
Theorem heading_line (lines : list string) (i k : nat) (line rest : string)
  (st : PState) :
  in_references st = false ->
  strip line = hashes k +:+ rest ->
  1 <= k ->
  startswith rest "#" = false ->
  step lines i line st
  = Ok {| body_content :=
            body_content st ++ paragraph_of (current_paragraph st)
            ++ [Heading (Nat.min k 5) (strip rest)];
          references := references st;
          in_references := false;
          current_paragraph := [] |}.
Proof.
  intros Hr Hs Hk Hrest.
  assert (Hh : startswith (strip line) "#" = true).
  { rewrite Hs. destruct k as [|k]; [lia | reflexivity]. }
  rewrite step_heading by assumption.
  rewrite Hs, heading_level_hashes, slice_from_hashes by exact Hrest.
  rewrite flush_eq. unfold emit. simpl.
  now rewrite Hr, <- app_assoc.
Qed.

Lemma heading_line_witness :
  step ["text"; "  ####### Deep  topic "] 1 "  ####### Deep  topic "
    {| body_content := []; references := [];
       in_references := false; current_paragraph := ["text"] |}
  = Ok {| body_content := [] ++ [Paragraph "text"]
                          ++ [Heading (Nat.min 7 5) (strip " Deep  topic")];
          references := [];
          in_references := false;
          current_paragraph := [] |}.
Proof.
  apply (heading_line ["text"; "  ####### Deep  topic "] 1 7
           "  ####### Deep  topic " " Deep  topic"
           {| body_content := []; references := [];
              in_references := false; current_paragraph := ["text"] |});
    [reflexivity | reflexivity | lia | reflexivity].
Defined.

(** X2. Whatever the text, every heading that [parse] returns has a level
    from 1 to 5, and every paragraph and every formula it returns has a
    text that is not empty. *)
Theorem parsed_blocks_wellformed (raw_text : string) :
  exists body refs,
    parse raw_text = Ok (body, refs) /\ Forall block_ok body.
Proof.
  unfold parse.
  destruct (loop_ok (split "010" raw_text) (split "010" raw_text) 0 init)
    as [st Hst].
  rewrite Hst. simpl. eexists _, _. split; [reflexivity |].
  apply (flush_state_ok st). eapply loop_state_ok; [| exact Hst].
  apply init_state_ok.
Qed.

(** X3. Whatever the text, every reference that [parse] returns is not
    empty and has no white space at either end: trimming it again changes
    nothing. *)
Theorem parsed_references_trimmed (raw_text : string) :
  exists body refs,
    parse raw_text = Ok (body, refs) /\ Forall reference_ok refs.
Proof.
  unfold parse.
  destruct (loop_ok (split "010" raw_text) (split "010" raw_text) 0 init)
    as [st Hst].
  rewrite Hst. simpl. eexists _, _. split; [reflexivity |].
  rewrite flush_eq. simpl.
  eapply loop_references_ok; [| exact Hst]. constructor.
Qed.

(** X4. Whatever the text, no paragraph that [parse] returns holds a
    backtick: a line with a backtick is never buffered, it is a heading, a
    formula line or dropped. *)
Theorem parsed_paragraphs_without_backtick (raw_text : string) :
  exists body refs,
    parse raw_text = Ok (body, refs) /\ Forall paragraph_ok body.
Proof.
  unfold parse.
  destruct (loop_ok (split "010" raw_text) (split "010" raw_text) 0 init)
    as [st Hst].
  rewrite Hst. simpl. eexists _, _. split; [reflexivity |].
  apply (flush_buffers_ok st). eapply loop_buffers_ok; [| exact Hst].
  split; constructor.
Qed.

(** X5. A text all of whose lines are plain (once trimmed: not empty, not
    "references" in any case, not starting with ['#'] or "---", without a
    backtick) is one paragraph, the trimmed lines joined by single spaces,
    and has no reference. *)
Theorem plain_lines_one_paragraph (raw_text : string) :
  Forall (fun l => is_plain (strip l) = true) (split "010" raw_text) ->
  parse raw_text
  = Ok ([Paragraph (join " " (map strip (split "010" raw_text)))], []).
Proof.
  intros Hall. unfold parse.
  rewrite loop_plain by (reflexivity || exact Hall). simpl.
  rewrite flush_eq. simpl.
  pose proof (split_nonempty "010" raw_text) as Hne.
  destruct (split "010" raw_text) as [|l ls]; [congruence | reflexivity].
Qed.

Lemma plain_lines_one_paragraph_witness :
  parse (text_of_lines ["  Learning is"; "a process. "; "It takes time."])
  = Ok ([Paragraph
           (join " "
              (map strip
                 (split "010"
                    (text_of_lines
                       ["  Learning is"; "a process. "; "It takes time."]))))],
        []).
Proof.
  apply (plain_lines_one_paragraph
           (text_of_lines ["  Learning is"; "a process. "; "It takes time."])).
  repeat constructor.
Defined.

(** X6. A text all of whose lines are blank gives no body block and no
    reference. *)
Theorem blank_text (raw_text : string) :
  Forall (fun l => strip l = "") (split "010" raw_text) ->
  parse raw_text = Ok ([], []).
Proof.
  intros Hall. unfold parse. now rewrite loop_blank.
Qed.

Lemma blank_text_witness :
  parse (text_of_lines [""; "   "; String "009" ""; ""]) = Ok ([], []).
Proof.
  apply (blank_text (text_of_lines [""; "   "; String "009" ""; ""])).
  repeat constructor.
Defined.

(** X7. When no line of the text enters the references section, that is no
    line is "references" in any case and no "---" line is followed by a
    first non-blank line that starts with an uppercase character, [parse]
    returns no reference: every line goes to the body. *)
Theorem no_marker_no_references (raw_text : string) :
  (forall i line,
     split "010" raw_text !! i = Some line ->
     enters (split "010" raw_text) i line = false) ->
  exists body, parse raw_text = Ok (body, []).
Proof.
  intros He. unfold parse.
  destruct (loop_ok (split "010" raw_text) (split "010" raw_text) 0 init)
    as [st Hst].
  rewrite Hst. simpl.
  destruct (loop_not_entering _ _ 0 init st He eq_refl eq_refl Hst)
    as [_ Hrefs].
  rewrite flush_eq. simpl. rewrite Hrefs. eauto.
Qed.

Lemma no_marker_no_references_witness :
  exists body,
    parse (text_of_lines ["# Title"; "Text"; "---"; "more text"])
    = Ok (body, []).
Proof.
  apply (no_marker_no_references
           (text_of_lines ["# Title"; "Text"; "---"; "more text"])).
  intros [|[|[|[|i]]]] line H; try (injection H as <-; reflexivity).
  discriminate H.
Defined.

(** X8. Let the trimmed line [i] of a text hold no two adjacent backticks
    and be [pre], a backtick, [inner], a backtick, [post], where [pre] and
    [inner] hold no backtick and [inner] is not empty. Then the formula
    extracted from the line, by the single-backtick search that follows the
    failed double-backtick one, is exactly [inner]; outside the references
    section, on a line that is not a heading, the step flushes the buffer
    and emits [Math inner]. *)
Theorem single_backtick_formula (raw_text : string) (i : nat)
  (line pre inner post : string) (st : PState) :
  split "010" raw_text !! i = Some line ->
  strip line = pre +:+ "`" +:+ inner +:+ "`" +:+ post ->
  contains "``" (strip line) = false ->
  contains "`" pre = false ->
  inner <> "" ->
  contains "`" inner = false ->
  formula_match (strip line) = Some inner
  /\ (in_references st = false ->
      startswith (strip line) "#" = false ->
      step (split "010" raw_text) i line st
      = Ok {| body_content :=
                body_content st ++ paragraph_of (current_paragraph st)
                ++ [Math inner];
              references := references st;
              in_references := false;
              current_paragraph := [] |}).
Proof.
  intros Hi Hs Hdd Hp Hne Hb.
  assert (Hn : contains (String "010" "") inner = false).
  { pose proof (line_no_newline _ _ _ Hi) as H.
    rewrite Hs, !contains_char_app in H.
    repeat (apply orb_false_iff in H as [? H]). assumption. }
  assert (Hf : formula_match (strip line) = Some inner).
  { unfold formula_match. rewrite (re_search_absent _ _ Hdd), Hs.
    now apply re_search_single. }
  split; [exact Hf |].
  intros Hr Hh.
  assert (Hbt : contains "`" (strip line) = true).
  { rewrite Hs, !contains_char_app. simpl. now rewrite orb_true_r. }
  rewrite step_backtick by assumption.
  rewrite Hf, flush_eq. unfold emit. simpl.
  now rewrite Hr, <- app_assoc.
Qed.

Lemma single_backtick_formula_witness :
  formula_match (strip " where `E = m c` holds, not `x` ") = Some "E = m c"
  /\ (false = false ->
      startswith (strip " where `E = m c` holds, not `x` ") "#" = false ->
      step (split "010" (text_of_lines [" where `E = m c` holds, not `x` "]))
           0 " where `E = m c` holds, not `x` " init
      = Ok {| body_content := [] ++ paragraph_of [] ++ [Math "E = m c"];
              references := [];
              in_references := false;
              current_paragraph := [] |}).
Proof.
  apply (single_backtick_formula
           (text_of_lines [" where `E = m c` holds, not `x` "]) 0
           " where `E = m c` holds, not `x` "
           "where " "E = m c" " holds, not `x`" init);
    [reflexivity | reflexivity | reflexivity | reflexivity | discriminate
    | reflexivity].
Defined.

End ParserMore.

(** ** The formatter: further properties *)

Module FormatterMore.

Import Py PyFacts TextParser Docx APAFormatter Spec SpecMore FormatterFacts
  MoreParserFacts MoreFormatterFacts.

(** X9. When XML can hold every reference, trimmed, [_create_references]
    does not raise. For an empty list it leaves the document as it is.
    Otherwise it appends the centred bold heading "References" and then, in
    order, one paragraph with a hanging indent (left 0.5 inch, first line
    -0.5 inch) for each reference that is not blank, holding the reference
    trimmed; blank references add nothing, so a list of blank references
    gives the heading alone. *)
Theorem references_list (references : list string) (doc : Document) :
  Forall (fun ref => xml_compatible (strip ref) = true) references ->
  _create_references references doc
  = (push_all
       (match references with
        | [] => []
        | _ :: _ =>
            references_heading
            :: map reference_para (List.filter truthy (map strip references))
        end) doc,
     Ok tt).
Proof.
  intros Hx. unfold _create_references.
  destruct references as [|r rs]; cbn [nonempty];
    [now rewrite ret_run, push_all_nil |].
  run_doc.
  rewrite (reference_entries_run _ _ Hx), push_all_push. reflexivity.
Qed.

Lemma references_list_witness :
  _create_references [" Doe, J. (2020). "; "   "; "Roe, R. (2021)."]
    new_Document
  = (push_all
       (references_heading
        :: map reference_para
             (List.filter truthy
                (map strip [" Doe, J. (2020). "; "   "; "Roe, R. (2021)."])))
       new_Document,
     Ok tt).
Proof.
  apply (references_list [" Doe, J. (2020). "; "   "; "Roe, R. (2021)."]
           new_Document).
  repeat constructor.
Defined.

(** X10. The references that [parse] returns are all listed when XML can
    hold them: for them [_create_references] appends the heading and
    exactly one entry per reference, with the text of the reference as it
    is. *)
Theorem parsed_references_listed (raw_text : string) (body : list Block)
  (refs : list string) (doc : Document) :
  parse raw_text = Ok (body, refs) ->
  refs <> [] ->
  Forall (fun ref => xml_compatible ref = true) refs ->
  _create_references refs doc
  = (push_all (references_heading :: map reference_para refs) doc, Ok tt).
Proof.
  intros Hp Hne Hx.
  pose proof (parse_references_ok _ _ _ Hp) as Hok.
  rewrite create_references_run by now apply references_ok_xml.
  unfold reference_paras. rewrite (filter_references_ok refs Hok).
  destruct refs; [congruence | reflexivity].
Qed.

Lemma parsed_references_listed_witness :
  _create_references ["Doe, J. (2020). Title."; "Roe, R. (2021). Other."]
    new_Document
  = (push_all
       (references_heading
        :: map reference_para
             ["Doe, J. (2020). Title."; "Roe, R. (2021). Other."])
       new_Document, Ok tt).
Proof.
  apply (parsed_references_listed
           (text_of_lines ["Body."; "References"; " Doe, J. (2020). Title.";
                           ""; "Roe, R. (2021). Other.  "])
           [Paragraph "Body."]
           ["Doe, J. (2020). Title."; "Roe, R. (2021). Other."]
           new_Document);
    [reflexivity | discriminate | repeat constructor].
Defined.

(** X11. When the title data has a title, and XML can hold the title and
    the values of the keys author, institution, course, instructor and
    date, [_create_title_page] does not raise and appends, in this order:
    three blank paragraphs, the centred paragraph of the title in bold, one
    blank paragraph, and one centred paragraph for each of the five keys
    that is present with a value that is not empty; a key that is absent or
    has an empty value adds nothing, and the order of the keys is fixed. *)
Theorem title_page (title_data : gmap string string) (title : string)
  (doc : Document) :
  title_data !! "title" = Some title ->
  xml_compatible title = true ->
  Forall (value_xml_ok title_data)
    ["author"; "institution"; "course"; "instructor"; "date"] ->
  _create_title_page title_data doc
  = (push_all
       ([empty_para; empty_para; empty_para; title_para title; empty_para]
        ++ flat_map (optional_line title_data)
             ["author"; "institution"; "course"; "instructor"; "date"])
       doc,
     Ok tt).
Proof.
  intros H Hx Hv. unfold _create_title_page, getitem. rewrite H.
  rewrite bind_run, blank_paragraphs_run.
  run_doc.
  rewrite (for_each_push_all _ (optional_line title_data)).
  - rewrite !push_one, !push_all_app. reflexivity.
  - eapply Forall_impl; [exact Hv |]. intros key Hk d.
    now apply title_line_run.
Qed.

Lemma title_page_witness :
  _create_title_page
    (<["date" := "May 2025"]> (<["course" := ""]>
       (<["author" := "Jane Doe"]> (<["title" := "On Learning"]> ∅))))
    new_Document
  = (push_all
       ([empty_para; empty_para; empty_para; title_para "On Learning";
         empty_para]
        ++ flat_map
             (optional_line
                (<["date" := "May 2025"]> (<["course" := ""]>
                   (<["author" := "Jane Doe"]>
                      (<["title" := "On Learning"]> ∅)))))
             ["author"; "institution"; "course"; "instructor"; "date"])
       new_Document,
     Ok tt).
Proof.
  apply (title_page
           (<["date" := "May 2025"]> (<["course" := ""]>
              (<["author" := "Jane Doe"]> (<["title" := "On Learning"]> ∅))))
           "On Learning" new_Document);
    [reflexivity | reflexivity | repeat constructor].
Defined.

(** X12. When no heading of [body_content] has an empty text and XML can
    hold the text of every block, [_create_body] does not raise, its loop
    ends, and it appends exactly the paragraphs of [body_paras], in order:
    one per block, except that a paragraph block right after a level 4 or
    level 5 heading is taken into the paragraph of that heading and gets
    none of its own. *)
Theorem body_mapping (body_content : list Block) (doc : Document) :
  Forall heading_text_ok body_content ->
  Forall block_xml_ok body_content ->
  _create_body body_content doc
  = (push_all (body_paras body_content) doc, Ok tt).
Proof.
  intros Hok Hxml. unfold _create_body.
  destruct (while_body_run (length body_content) body_content 0 doc Hok Hxml)
    as [j Hj]; [lia |].
  rewrite bind_run, Hj. reflexivity.
Qed.

Lemma body_mapping_witness :
  _create_body
    [Heading 1 "Intro"; Paragraph "p"; Heading 4 "Run"; Paragraph "q";
     Math "a = b"; Heading 5 "Alone"; Heading 7 "Deep"]
    new_Document
  = (push_all
       (body_paras
          [Heading 1 "Intro"; Paragraph "p"; Heading 4 "Run"; Paragraph "q";
           Math "a = b"; Heading 5 "Alone"; Heading 7 "Deep"])
       new_Document, Ok tt).
Proof.
  apply (body_mapping
           [Heading 1 "Intro"; Paragraph "p"; Heading 4 "Run"; Paragraph "q";
            Math "a = b"; Heading 5 "Alone"; Heading 7 "Deep"] new_Document).
  - repeat constructor; discriminate.
  - repeat constructor.
Defined.

(** X13. A heading with an empty text at a level from 1 to 5 that is not
    run in (at level 4 or 5: not followed by a paragraph block) makes the
    iteration raise [IndexError]: its paragraph has no run to format. *)
Theorem empty_heading_error (body_content : list Block) (i level : nat)
  (doc : Document) :
  body_content !! i = Some (Heading level "") ->
  1 <= level <= 5 ->
  (level = 4 \/ level = 5 -> is_paragraph (body_content !! (i + 1)) = None) ->
  snd (body_step body_content i doc) = Raise IndexError.
Proof.
  intros Hi Hl Hn. unfold body_step. rewrite Hi, next_of_lookup.
  assert (H : (if bool_decide (level ∈ [4; 5])
               then is_paragraph (body_content !! (i + 1)) else None) = None).
  { destruct (bool_decide (level ∈ [4; 5])) eqn:E; [| reflexivity].
    apply Hn, level_4_5_inv, E. }
  cbv zeta. rewrite H, bind_run.
  pose proof (empty_heading_raises level doc Hl) as Hr.
  destruct (regular_heading level "" doc) as [d r]. simpl in Hr.
  now rewrite Hr.
Qed.

Lemma empty_heading_error_witness :
  snd (body_step [Heading 2 ""; Paragraph "p"] 0 new_Document)
  = Raise IndexError.
Proof.
  apply (empty_heading_error [Heading 2 ""; Paragraph "p"] 0 2 new_Document);
    [reflexivity | lia | intros [H | H]; discriminate H].
Defined.

(** X14. When the title data has a title, no heading of the body has an
    empty text, and XML can hold the title, the values of the five optional
    keys of the title page, the text of every block and every reference,
    trimmed, [create_document] does not raise and returns a document with
    Times New Roman 12 pt, double line spacing and no space before or after
    paragraphs, margins of one inch, a right-aligned [PAGE] field in the
    header, and as body: the title page, a page break, the paragraphs of the
    body, a second page break, and the reference list. The second page
    break is there even when there is no reference. *)
Theorem document_layout (title_data : gmap string string) (title : string)
  (body_content : list Block) (references : list string) :
  title_data !! "title" = Some title ->
  xml_compatible title = true ->
  Forall (value_xml_ok title_data)
    ["author"; "institution"; "course"; "instructor"; "date"] ->
  Forall heading_text_ok body_content ->
  Forall block_xml_ok body_content ->
  Forall (fun ref => xml_compatible (strip ref) = true) references ->
  create_document title_data body_content references
  = (apa_settings
       (title_paras title_data title ++ [page_break_para]
        ++ body_paras body_content ++ [page_break_para]
        ++ reference_paras references),
     Ok tt).
Proof.
  intros Ht Hx Hv Hok Hb Hr. unfold create_document.
  rewrite bind_run. unfold _set_document_defaults at 1. rewrite modify_run.
  rewrite bind_run. unfold _set_margins at 1. rewrite modify_run.
  rewrite bind_run. unfold _add_page_numbers at 1. rewrite modify_run.
  rewrite bind_run, (create_title_page_run _ _ _ Ht Hx Hv).
  rewrite bind_run, add_page_break_run, push_one, push_all_app.
  rewrite bind_run, create_body_run, push_all_app by assumption.
  rewrite bind_run, add_page_break_run, push_one, push_all_app.
  rewrite create_references_run, push_all_app by exact Hr.
  rewrite <- !app_assoc. reflexivity.
Qed.

Lemma document_layout_witness :
  create_document (<["title" := "T"]> ∅) [Heading 1 "Intro"; Paragraph "p"] []
  = (apa_settings
       (title_paras (<["title" := "T"]> ∅) "T" ++ [page_break_para]
        ++ body_paras [Heading 1 "Intro"; Paragraph "p"] ++ [page_break_para]
        ++ reference_paras []),
     Ok tt).
Proof.
  apply (document_layout (<["title" := "T"]> ∅) "T"
           [Heading 1 "Intro"; Paragraph "p"] []);
    [reflexivity | reflexivity | repeat constructor
    | repeat constructor; discriminate | repeat constructor | constructor].
Defined.

(** X15. When the title data has a title, the text gives no heading with an
    empty text, XML can hold the title, the values of the five optional keys
    and the text of every block and reference, and the output path can be
    written, [create_apa_document] does not raise and makes one save, after
    the ones before it, of the document made of the parsed body and
    references, at the output path. *)
Theorem document_saved (title_data : gmap string string)
  (title raw_text output_path : string) (body : list Block)
  (refs : list string) (fs : Files) :
  title_data !! "title" = Some title ->
  xml_compatible title = true ->
  Forall (value_xml_ok title_data)
    ["author"; "institution"; "course"; "instructor"; "date"] ->
  parse raw_text = Ok (body, refs) ->
  Forall heading_text_ok body ->
  Forall block_xml_ok body ->
  Forall (fun ref => xml_compatible ref = true) refs ->
  writable fs output_path = true ->
  create_apa_document title_data raw_text output_path fs
  = ({| writable := writable fs;
        saved := saved fs
                 ++ [(output_path,
                      apa_settings
                        (title_paras title_data title ++ [page_break_para]
                         ++ body_paras body ++ [page_break_para]
                         ++ reference_paras refs))] |},
     Ok tt).
Proof.
  intros Ht Hx Hv Hp Hok Hb Hr Hw.
  pose proof (references_ok_xml _ (parse_references_ok _ _ _ Hp) Hr) as Hr'.
  unfold create_apa_document. rewrite Hp.
  rewrite (create_document_run _ _ _ _ Ht Hx Hv Hok Hb Hr').
  unfold save. now rewrite Hw.
Qed.

Lemma document_saved_witness :
  create_apa_document (<["title" := "T"]> ∅)
    (text_of_lines ["# Intro"; "Some text."; "References"; "Doe (2020)."])
    "out.docx" ∅
  = ({| writable := writable ∅;
        saved := saved ∅
                 ++ [("out.docx",
                      apa_settings
                        (title_paras (<["title" := "T"]> ∅) "T"
                         ++ [page_break_para]
                         ++ body_paras
                              [Heading 1 "Intro"; Paragraph "Some text."]
                         ++ [page_break_para]
                         ++ reference_paras ["Doe (2020)."])) ] |},
     Ok tt).
Proof.
  apply (document_saved (<["title" := "T"]> ∅) "T"
           (text_of_lines
              ["# Intro"; "Some text."; "References"; "Doe (2020)."])
           "out.docx" [Heading 1 "Intro"; Paragraph "Some text."]
           ["Doe (2020)."] ∅);
    [reflexivity | reflexivity | repeat constructor | reflexivity
    | repeat constructor; discriminate | repeat constructor
    | repeat constructor | reflexivity].
Defined.



(** X17. A paragraph block whose text holds a character that XML cannot
    hold makes the iteration raise [ValueError]: the library refuses the
    text of the run. *)
Theorem control_character_error (body_content : list Block) (i : nat)
  (text : string) (doc : Document) :
  body_content !! i = Some (Paragraph text) ->
  xml_compatible text = false ->
  snd (body_step body_content i doc) = Raise ValueError.
Proof.
  intros Hi Hx. unfold body_step. rewrite Hi, bind_run.
  pose proof (add_paragraph_raises text doc Hx) as H.
  destruct (add_paragraph text doc) as [d [a|e]]; simpl in H;
    [discriminate | now rewrite H].
Qed.

Lemma control_character_error_witness :
  snd (body_step [Paragraph ("a" +:+ String "001" "b")] 0 new_Document)
  = Raise ValueError.
Proof.
  apply (control_character_error [Paragraph ("a" +:+ String "001" "b")] 0
           ("a" +:+ String "001" "b") new_Document);
    reflexivity.
Defined.

End FormatterMore.
